(** * Greenwashing-Index-Visualization: the dashboard script [app.py]

    A shallow embedding of the data-processing parts of the Streamlit
    script: the two cached CSV loaders, the per-year top-10 ranking behind
    the bump chart, and the quadrant layout of the animated industry
    scatter plot.

    Numbers.  The metric columns are pandas [float64] columns.  For the
    ranking, the loaders and the structure of the layout a cell is either
    missing ([NaN]) or a finite value, read as the exact rational it
    denotes: the order, equality and NaN behaviour of the comparisons and
    of the reductions are kept, rounding and the infinities are not.  The
    values of the layout (the mean, the products by 0.6 and 0.9) are
    stated in IEEE 754 binary64 ([Binary64], [Quadrant64]). *)

From Stdlib Require Import String Ascii.
From Stdlib Require Import List Bool Arith ZArith QArith Qminmax.
From Stdlib Require Import Lia Lqa Permutation Sorted DecimalString.
From Stdlib Require Import SpecFloat.
Import ListNotations.

Open Scope Z_scope.

(* ------------------------------------------------------------------ *)
(** ** Floating-point cells *)

Inductive f64 : Type :=
| NaN
| Num (q : Q).

(** [a * b] on floats: NaN is absorbing. *)
Definition fmul (a b : f64) : f64 :=
  match a, b with
  | Num x, Num y => Num (x * y)
  | _, _ => NaN
  end.

(** [a <= b] on floats: every comparison with NaN is [False]. *)
Definition fle (a b : f64) : bool :=
  match a, b with
  | Num x, Num y => Qle_bool x y
  | _, _ => false
  end.

(** [x < y] on finite values. *)
Definition Qltb (x y : Q) : bool := negb (Qle_bool y x).

Definition notna (a : f64) : bool :=
  match a with
  | Num _ => true
  | NaN => false
  end.

(** The float holding the whole number [n]. *)
Definition of_nat (n : nat) : f64 := Num (inject_Z (Z.of_nat n)).


(* ------------------------------------------------------------------ *)
(** ** Outcomes of Python calls *)

(** A Python exception, identified by the name of its class. *)
Inductive exn : Type :=
| PyExc (cls : string).

Definition FileNotFoundError : exn := PyExc "FileNotFoundError".
Definition KeyError : exn := PyExc "KeyError".
Definition ValueError : exn := PyExc "ValueError".

(** The error classes of the specification's taxonomy.  No statement of
    the script raises or catches them. *)
Definition DataLoadError : exn := PyExc "DataLoadError".
Definition InsufficientDataError : exn := PyExc "InsufficientDataError".

Inductive outcome (A : Type) : Type :=
| Returns (a : A)
| Raises (e : exn).

Arguments Returns {A} a.
Arguments Raises {A} e.

Definition bind {A B : Type} (c : outcome A) (k : A -> outcome B) : outcome B :=
  match c with
  | Returns a => k a
  | Raises e => Raises e
  end.

Notation "x <- c ;; k" := (bind c (fun x => k))
  (at level 61, c at next level, right associativity).

(* ------------------------------------------------------------------ *)
(** ** Positional helpers *)

(** [enumerate l] pairs every element with its 0-based position, as
    Python's [enumerate]. *)
Definition enumerate {A : Type} (l : list A) : list (nat * A) :=
  combine (seq 0 (length l)) l.

(* ------------------------------------------------------------------ *)
(** ** The top-10 ranking (app.py, lines 205-227) *)

Module Ranking.

(** A row of [countrylevel.csv] after [load_data]. *)
Record row : Type := {
  country : string;
  year : Z;
  ccii : f64;
  gwe : f64;
  gwghg : f64
}.

(** The values of [metric_map]. *)
Inductive metric_name : Type :=
| m_ccii
| m_gwe
| m_gwghg.

(** [df[metric]] at one row. *)
Definition col (metric : metric_name) (r : row) : f64 :=
  match metric with
  | m_ccii => ccii r
  | m_gwe => gwe r
  | m_gwghg => gwghg r
  end.

(** A row of [df_rank]: the columns of [df] and the new column ["rank"]. *)
Record ranked : Type := {
  base : row;
  rank : f64
}.

(** [outranks metric i r (j, r')]: in the group of [r], row [r'] at
    position [j] comes before row [r] at position [i] in the descending
    order with method ["first"]: a strictly greater value, or an equal
    value met earlier in the table.  Missing values take no part. *)
Definition outranks (metric : metric_name) (i : nat) (r : row)
    (e : nat * row) : bool :=
  let (j, r') := e in
  (year r' =? year r) &&
  match col metric r', col metric r with
  | Num v', Num v => Qltb v v' || (Qeq_bool v' v && (j <? i)%nat)
  | _, _ => false
  end.

(** The number of rows that come before the row [e] of the table. *)
Definition place (metric : metric_name) (df : list row) (e : nat * row) : nat :=
  length (filter (outranks metric (fst e) (snd e)) (enumerate df)).

(** [df.groupby("year")[metric].rank(method="first", ascending=False)] at
    the row [r] of position [i]: NaN for a missing value (pandas'
    [na_option="keep"]), else one more than the number of rows of the
    same year that come before it. *)
Definition rank_first (metric : metric_name) (df : list row)
    (i : nat) (r : row) : f64 :=
  match col metric r with
  | NaN => NaN
  | Num _ => of_nat (S (place metric df (i, r)))
  end.

(** [df_rank["rank"] = ...] (lines 220-224). *)
Definition assign_rank (metric : metric_name) (df : list row) : list ranked :=
  map (fun e => {| base := snd e; rank := rank_first metric df (fst e) (snd e) |})
      (enumerate df).

(** [df_rank[df_rank["rank"] <= 10]] (line 226). *)
Definition top10 (rr : ranked) : bool := fle (rank rr) (Num 10).

(** The order of [sort_values(["country", "year"])]: by country name
    (code-point order), then by year. *)
Definition key_le (a b : ranked) : bool :=
  match String.compare (country (base a)) (country (base b)) with
  | Lt => true
  | Eq => year (base a) <=? year (base b)
  | Gt => false
  end.

Fixpoint insert_sorted (x : ranked) (l : list ranked) : list ranked :=
  match l with
  | [] => [x]
  | y :: l' => if key_le x y then x :: l else y :: insert_sorted x l'
  end.

(** [sort_values] on several keys is a stable sort; rows with equal keys
    keep their order. *)
Fixpoint sort_values (l : list ranked) : list ranked :=
  match l with
  | [] => []
  | x :: l' => insert_sorted x (sort_values l')
  end.

(** The column [df_rank["rank"]], in the order of the input rows. *)
Definition rank_column (metric : metric_name) (df : list row) : list f64 :=
  map rank (assign_rank metric df).

(** The table handed to the bump chart (lines 218-227). *)
Definition df_rank (metric : metric_name) (df : list row) : list ranked :=
  sort_values (filter top10 (assign_rank metric df)).

(** The ranks shown for one year. *)
Definition ranks_of_year (y : Z) (out : list ranked) : list f64 :=
  map rank (filter (fun rr => year (base rr) =? y) out).

(** Sorted by (country, year), in words: a smaller name, or the same
    name and a year that is not later. *)
Definition entity_year_le (a b : ranked) : Prop :=
  String.ltb (country (base a)) (country (base b)) = true \/
  (country (base a) = country (base b) /\ year (base a) <= year (base b)).

(** The present rows of one year, with their positions. *)
Definition in_group (metric : metric_name) (y : Z) (e : nat * row) : bool :=
  (year (snd e) =? y) && notna (col metric (snd e)).

(** The number of rows of year [y] in [df] (the size of the group). *)
Definition group_size (y : Z) (df : list row) : nat :=
  length (filter (fun r => year r =? y) df).

(** The number of rows of year [y] whose metric is not missing. *)
Definition group_count (metric : metric_name) (y : Z) (df : list row) : nat :=
  length (filter (fun r => (year r =? y) && notna (col metric r)) df).

End Ranking.

(* ------------------------------------------------------------------ *)
(** ** The quadrant layout of the industry scatter plot
       (app.py, lines 278-338) *)

Module Quadrant.

(** A row of [industrylevel.csv] after [load_industry_data]. *)
Record row : Type := {
  industry : string;
  year : Z;
  ccii : f64;
  gwe : f64;
  gwghg : f64
}.

(** The values of [color_metric_map]. *)
Inductive y_name : Type :=
| y_gwe
| y_gwghg.

Definition col (y_metric : y_name) (r : row) : f64 :=
  match y_metric with
  | y_gwe => gwe r
  | y_gwghg => gwghg r
  end.

(** The present values of a column: the reductions skip missing cells
    (pandas' [skipna=True]). *)
Fixpoint dropna (s : list f64) : list Q :=
  match s with
  | [] => []
  | NaN :: s' => dropna s'
  | Num q :: s' => q :: dropna s'
  end.

Definition Qsum (l : list Q) : Q := fold_left Qplus l 0%Q.

Definition Qcount (l : list Q) : Q := inject_Z (Z.of_nat (length l)).

(** pandas' [nanops.nanmean]: the mean of the present values; NaN when
    there is none. *)
Definition nanmean (s : list f64) : f64 :=
  match dropna s with
  | [] => NaN
  | vs => Num (Qsum vs / Qcount vs)
  end.

(** [nanops.nanmax] and [nanops.nanmin], likewise. *)
Definition nanmax (s : list f64) : f64 :=
  match dropna s with
  | [] => NaN
  | v :: vs => Num (fold_left Qmax vs v)
  end.

Definition nanmin (s : list f64) : f64 :=
  match dropna s with
  | [] => NaN
  | v :: vs => Num (fold_left Qmin vs v)
  end.

(** [Series.mean()], [Series.max()] and [Series.min()] on a float
    column: the calls return, also on a column without a value. *)
Definition series_mean (s : list f64) : outcome f64 := Returns (nanmean s).

Definition series_max (s : list f64) : outcome f64 := Returns (nanmax s).

Definition series_min (s : list f64) : outcome f64 := Returns (nanmin s).

(** A line added with [fig.add_shape(type="line", ...)]. *)
Record shape : Type := {
  x0 : f64;
  x1 : f64;
  y0 : f64;
  y1 : f64
}.

(** An entry of [annotations]. *)
Record annotation : Type := {
  ann_x : f64;
  ann_y : f64;
  ann_text : string
}.

(** What lines 311-338 put into the figure's layout. *)
Record layout : Type := {
  x_center : f64;
  y_center : f64;
  shapes : list shape;
  annotations : list annotation
}.

Definition c06 : f64 := Num (6 # 10).
Definition c09 : f64 := Num (9 # 10).

(** Lines 311-338, statement by statement. *)
Definition quadrant_layout (df_ind : list row) (y_metric : y_name)
    : outcome layout :=
  let xs := map ccii df_ind in
  let ys := map (col y_metric) df_ind in
  let x_center := Num 0 in
  y_center <- series_mean ys ;;
  v_y0 <- series_min ys ;;
  v_y1 <- series_max ys ;;
  h_x0 <- series_min xs ;;
  h_x1 <- series_max xs ;;
  a1x <- series_max xs ;; a1y <- series_max ys ;;
  a2x <- series_min xs ;; a2y <- series_max ys ;;
  a3x <- series_min xs ;; a3y <- series_min ys ;;
  a4x <- series_max xs ;; a4y <- series_min ys ;;
  Returns {|
    x_center := x_center;
    y_center := y_center;
    shapes :=
      [ {| x0 := x_center; x1 := x_center; y0 := v_y0; y1 := v_y1 |};
        {| x0 := h_x0; x1 := h_x1; y0 := y_center; y1 := y_center |} ];
    annotations :=
      [ {| ann_x := fmul a1x c06; ann_y := fmul a1y c09;
           ann_text := "High CCII<br>High Greenwashing<br>(Symbolic Commitment)" |};
        {| ann_x := fmul a2x c06; ann_y := fmul a2y c09;
           ann_text := "Low CCII<br>High Greenwashing<br>(Formalist / Passive)" |};
        {| ann_x := fmul a3x c06; ann_y := fmul a3y c09;
           ann_text := "Low CCII<br>Low Greenwashing<br>(Low-risk Industry)" |};
        {| ann_x := fmul a4x c06; ann_y := fmul a4y c09;
           ann_text := "High CCII<br>Low Greenwashing<br>(Substantive Commitment)" |} ]
  |}.

(** A marker of the scatter plot: [text="industry"], [x="ccii"],
    [y=y_metric]. *)
Record point : Type := {
  label : string;
  px : f64;
  py : f64
}.

(** The data of the animation frame of one year
    ([animation_frame="year"]): the rows of that year. *)
Definition frame_points (df_ind : list row) (y_metric : y_name) (yr : Z)
    : list point :=
  map (fun r => {| label := industry r; px := ccii r; py := col y_metric r |})
      (filter (fun r => year r =? yr) df_ind).

(** What is on screen while the frame of one year is shown: the frame's
    own markers and the figure's layout. *)
Record QuadrantFrame : Type := {
  frame_year : Z;
  points : list point;
  x_ref : f64;
  y_ref : f64;
  anchors : list annotation
}.

Definition compute_quadrant_layout (df_ind : list row) (y_metric : y_name)
    : outcome (Z -> QuadrantFrame) :=
  lay <- quadrant_layout df_ind y_metric ;;
  Returns (fun yr =>
    {| frame_year := yr;
       points := frame_points df_ind y_metric yr;
       x_ref := x_center lay;
       y_ref := y_center lay;
       anchors := annotations lay |}).

(** A table with CCII between -2 and 4, GWE between 0 and 10, and a mean
    GWE of 4. *)
Definition example_table : list row :=
  [ {| industry := "Energy"; year := 2020;
       ccii := Num (-2); gwe := Num 0; gwghg := NaN |};
    {| industry := "Retail"; year := 2020;
       ccii := Num 4; gwe := Num 10; gwghg := NaN |};
    {| industry := "Energy"; year := 2021;
       ccii := Num 1; gwe := Num 2; gwghg := NaN |} ].

(** The extrema of a list of values, in the words of the
    specification. *)
Definition greatest (l : list Q) (m : Q) : Prop :=
  (exists x, In x l /\ x == m) /\ forall x, In x l -> (x <= m)%Q.

Definition least (l : list Q) (m : Q) : Prop :=
  (exists x, In x l /\ x == m) /\ forall x, In x l -> (m <= x)%Q.

End Quadrant.

(* ------------------------------------------------------------------ *)
(** ** The cached loaders (app.py, lines 86-92 and 264-270) *)

Module Loader.

Definition OverflowError : exn := PyExc "OverflowError".

(** A cell of an [object] column as [read_csv] leaves it: the text of a
    field that is not a number, the float NaN of an empty field, or,
    in a column of mixed types, a Python [int] or [float]. *)
Inductive pyobj : Type :=
| PyStr (s : string)
| PyFloat (f : f64)
| PyInt (z : Z).

(** A column with its dtype, as the type inference of [read_csv] can
    give it. *)
Inductive Series : Type :=
| Int64 (xs : list Z)
| UInt64 (xs : list Z)
| Float64 (xs : list f64)
| Bool (xs : list bool)
| Object (xs : list pyobj).

(** The range of [int64]. *)
Definition int64_min : Z := -9223372036854775808.
Definition int64_max : Z := 9223372036854775807.

Definition in_int64 (z : Z) : bool := (int64_min <=? z) && (z <=? int64_max).

(** The number of rows of a column. *)
Definition size (s : Series) : nat :=
  match s with
  | Int64 xs => length xs
  | UInt64 xs => length xs
  | Float64 xs => length xs
  | Bool xs => length xs
  | Object xs => length xs
  end.

(** A DataFrame: its columns by name, in order. *)
Definition DataFrame : Type := list (string * Series).

(** The files of the working directory: the text of each existing file. *)
Definition files : Type := string -> option string.

(** [df[name]]. *)
Fixpoint getitem (df : DataFrame) (name : string) : outcome Series :=
  match df with
  | [] => Raises KeyError
  | (n, s) :: df' => if String.eqb n name then Returns s else getitem df' name
  end.

(** [df[name] = s] for a column [s] on the index of [df], as the cast
    of one of its own columns is: replaces the column, or appends a new
    one.  (A column on another index, which pandas realigns, is never
    assigned by the script.) *)
Fixpoint setitem (df : DataFrame) (name : string) (s : Series) : DataFrame :=
  match df with
  | [] => [(name, s)]
  | (n, s') :: df' =>
      if String.eqb n name then (n, s) :: df' else (n, s') :: setitem df' name s
  end.

(** [int(x)] on a finite float: truncation towards zero. *)
Definition trunc (q : Q) : Z := Z.quot (Qnum q) (Zpos (Qden q)).

Section World.

(** pandas' CSV parser, on the text of a file. *)
Variable parse_csv : string -> outcome DataFrame.

(** Python's [int] on a [str]: [None] stands for its [ValueError]. *)
Variable py_int : string -> option Z.

(** [pd.read_csv(path)]. *)
Definition read_csv (fs : files) (path : string) : outcome DataFrame :=
  match fs path with
  | None => Raises FileNotFoundError
  | Some text => parse_csv text
  end.

(** The conversion of a Python [int] to an element of an [int64]
    array. *)
Definition to_int64 (z : Z) : outcome Z :=
  if in_int64 z then Returns z else Raises OverflowError.

(** [int] on one cell of an object column; [None] stands for its
    [ValueError]. *)
Definition py_int_cell (c : pyobj) : option Z :=
  match c with
  | PyStr s => py_int s
  | PyFloat NaN => None
  | PyFloat (Num q) => Some (trunc q)
  | PyInt z => Some z
  end.

(** The cast of one cell of an object column: [int] on the cell, then
    the conversion of its result. *)
Definition int_cell (c : pyobj) : outcome Z :=
  match py_int_cell c with
  | Some z => to_int64 z
  | None => Raises ValueError
  end.

(** The cast of one finite float of a float column: truncation; a value
    beyond [int64] does not raise, the conversion of the processor
    (x86-64) gives the least [int64]. *)
Definition cast_float (q : Q) : Z :=
  if in_int64 (trunc q) then trunc q else int64_min.

(** The cast of one element of a [uint64] column: the same 64 bits, read
    as a signed number. *)
Definition cast_uint64 (z : Z) : Z :=
  if z <=? int64_max then z else z - 18446744073709551616.

Fixpoint int_cells (cs : list pyobj) : outcome (list Z) :=
  match cs with
  | [] => Returns []
  | c :: cs' =>
      z <- int_cell c ;;
      zs <- int_cells cs' ;;
      Returns (z :: zs)
  end.

(** [s.astype(int)].  A float column with a missing value cannot be
    cast: pandas raises a [ValueError] (of the subclass
    [IntCastingNaNError] in its recent versions).  The cells of an object
    column are cast one after the other; the first that fails ends the
    cast with its exception. *)
Definition astype_int (s : Series) : outcome Series :=
  match s with
  | Int64 xs => Returns (Int64 xs)
  | UInt64 xs => Returns (Int64 (map cast_uint64 xs))
  | Float64 xs =>
      if forallb notna xs
      then Returns (Int64 (map (fun f => match f with
                                         | Num q => cast_float q
                                         | NaN => 0
                                         end) xs))
      else Raises ValueError
  | Bool xs => Returns (Int64 (map (fun b : bool => if b then 1 else 0) xs))
  | Object cs =>
      zs <- int_cells cs ;;
      Returns (Int64 zs)
  end.

(** The body shared by [load_data] and [load_industry_data]. *)
Definition load (path : string) (fs : files) : outcome DataFrame :=
  df <- read_csv fs path ;;
  y <- getitem df "year" ;;
  y' <- astype_int y ;;
  Returns (setitem df "year" y').

Definition load_data : files -> outcome DataFrame := load "countrylevel.csv".

Definition load_industry_data : files -> outcome DataFrame :=
  load "industrylevel.csv".

(** The store of [st.cache_data]: one entry per decorated function, as
    neither takes an argument. *)
Record cache : Type := {
  memo_load_data : option DataFrame;
  memo_load_industry_data : option DataFrame
}.

Definition empty_cache : cache :=
  {| memo_load_data := None; memo_load_industry_data := None |}.

(** [@st.cache_data]: a stored value is returned without running the
    body; a value the body returns is stored; an exception is not. *)
Definition cache_data (slot : cache -> option DataFrame)
    (store : DataFrame -> cache -> cache)
    (body : files -> outcome DataFrame)
    (fs : files) (c : cache) : outcome DataFrame * cache :=
  match slot c with
  | Some df => (Returns df, c)
  | None =>
      match body fs with
      | Returns df => (Returns df, store df c)
      | Raises e => (Raises e, c)
      end
  end.

Definition cached_load_data : files -> cache -> outcome DataFrame * cache :=
  cache_data memo_load_data
    (fun df c => {| memo_load_data := Some df;
                    memo_load_industry_data := memo_load_industry_data c |})
    load_data.

Definition cached_load_industry_data
    : files -> cache -> outcome DataFrame * cache :=
  cache_data memo_load_industry_data
    (fun df c => {| memo_load_data := memo_load_data c;
                    memo_load_industry_data := Some df |})
    load_industry_data.

End World.

(** A directory without the two CSV files. *)
Definition no_files : files := fun _ => None.

(** Python's [int] on ASCII text, for the examples: blanks around, an
    optional sign, then decimal digits, with single underscores allowed
    between digits. *)
Definition is_space (c : ascii) : bool :=
  let n := nat_of_ascii c in
  ((9 <=? n) && (n <=? 13) || (28 <=? n) && (n <=? 32))%nat.

Definition digit_value (c : ascii) : option Z :=
  let n := nat_of_ascii c in
  if ((48 <=? n) && (n <=? 57))%nat then Some (Z.of_nat n - 48) else None.

Fixpoint lstrip (l : list ascii) : list ascii :=
  match l with
  | c :: l' => if is_space c then lstrip l' else l
  | [] => []
  end.

Definition strip (l : list ascii) : list ascii :=
  rev (lstrip (rev (lstrip l))).

(** The digits after the sign; [after_digit] says whether the character
    before was a digit. *)
Fixpoint digits (acc : Z) (after_digit : bool) (l : list ascii) : option Z :=
  match l with
  | [] => if after_digit then Some acc else None
  | c :: l' =>
      match digit_value c with
      | Some d => digits (10 * acc + d) true l'
      | None =>
          if Ascii.eqb c "_" && after_digit then digits acc false l' else None
      end
  end.

Definition decimal_int (s : string) : option Z :=
  match strip (list_ascii_of_string s) with
  | "-"%char :: l => option_map Z.opp (digits 0 false l)
  | "+"%char :: l => digits 0 false l
  | l => digits 0 false l
  end.

Definition nl : string := String (ascii_of_nat 10) EmptyString.

(** A small [countrylevel.csv], and the same file with a year that is
    not a number. *)
Definition good_csv : string :=
  "country,year,ccii,gwe,gwghg" ++ nl ++
  "A,2020,0.5,1.5,2.5" ++ nl ++
  "B,2021,1.5,2.5,3.5" ++ nl.

Definition bad_year_csv : string :=
  "country,year,ccii,gwe,gwghg" ++ nl ++
  "A,2020,0.5,1.5,2.5" ++ nl ++
  "B,abc,1.5,2.5,3.5" ++ nl.

(** The frames [read_csv] makes of them: a column of whole numbers is
    [int64]; one text that is not a number makes the whole column an
    [object] column of texts. *)
Definition good_frame : DataFrame :=
  [ ("country", Object [PyStr "A"; PyStr "B"]);
    ("year", Int64 [2020; 2021]);
    ("ccii", Float64 [Num (5 # 10); Num (15 # 10)]);
    ("gwe", Float64 [Num (15 # 10); Num (25 # 10)]);
    ("gwghg", Float64 [Num (25 # 10); Num (35 # 10)]) ]%string.

Definition bad_year_frame : DataFrame :=
  [ ("country", Object [PyStr "A"; PyStr "B"]);
    ("year", Object [PyStr "2020"; PyStr "abc"]);
    ("ccii", Float64 [Num (5 # 10); Num (15 # 10)]);
    ("gwe", Float64 [Num (15 # 10); Num (25 # 10)]);
    ("gwghg", Float64 [Num (25 # 10); Num (35 # 10)]) ]%string.

(** The parser on these two texts; its answer on any other text is not
    used below. *)
Definition example_parser (text : string) : outcome DataFrame :=
  if String.eqb text good_csv then Returns good_frame
  else if String.eqb text bad_year_csv then Returns bad_year_frame
  else Raises (PyExc "ParserError").

(** A directory with a well-formed, and one with a malformed,
    [countrylevel.csv]. *)
Definition good_files : files :=
  fun path => if String.eqb path "countrylevel.csv" then Some good_csv else None.

Definition bad_year_files : files :=
  fun path =>
    if String.eqb path "countrylevel.csv" then Some bad_year_csv else None.

End Loader.

(* ------------------------------------------------------------------ *)
(** ** Python dictionaries *)

Module Dict.

Section Ops.

Context {V : Type}.

(** A [dict] with text keys, in insertion order. *)
Definition dict : Type := list (string * V).

(** [d[k]]. *)
Fixpoint getitem (d : dict) (k : string) : outcome V :=
  match d with
  | [] => Raises KeyError
  | (k', v) :: d' => if String.eqb k' k then Returns v else getitem d' k
  end.

(** [list(d.keys())]. *)
Definition keys (d : dict) : list string := map fst d.

(** [k in d]. *)
Definition contains (d : dict) (k : string) : bool :=
  existsb (String.eqb k) (keys d).

(** [d[k] = v]. *)
Fixpoint setitem (d : dict) (k : string) (v : V) : dict :=
  match d with
  | [] => [(k, v)]
  | (k', v') :: d' =>
      if String.eqb k' k then (k', v) :: d' else (k', v') :: setitem d' k v
  end.

End Ops.

Arguments dict V : clear implicits.

End Dict.

(* ------------------------------------------------------------------ *)
(** ** The selectors and their tables
       (app.py, lines 97-126, 205-216, 278-287) *)

Module Config.

(** An entry of [indicator_config]. *)
Record indicator_entry : Type := {
  column : string;
  title : string;
  colorscale : list string
}.

(** The options of the radio button of line 97. *)
Definition indicator_options : list string := ["CCII"; "GWE"; "GWGHG"]%string.

Definition indicator_config : Dict.dict indicator_entry :=
  [ ("CCII",
     {| column := "ccii";
        title := "Climate Commitment Intensity Index (CCII)";
        colorscale := ["#cce6ff"; "#3399ff"; "#003366"] |});
    ("GWE",
     {| column := "gwe";
        title := "Greenwashing based on Environmental Score (GWE)";
        colorscale := ["#d9f2d9"; "#4caf50"; "#1b5e20"] |});
    ("GWGHG",
     {| column := "gwghg";
        title := "Greenwashing based on Carbon Emissions (GWGHG)";
        colorscale := ["#f5cccc"; "#e53935"; "#7f0000"] |}) ]%string.

(** Lines 124-126. *)
Definition select_indicator (indicator : string)
    : outcome (string * string * list string) :=
  c <- Dict.getitem indicator_config indicator ;;
  t <- Dict.getitem indicator_config indicator ;;
  s <- Dict.getitem indicator_config indicator ;;
  Returns (column c, title t, colorscale s).

Definition metric_map : Dict.dict string :=
  [ ("Climate Commitment Intensity Index (CCII)", "ccii");
    ("Greenwashing Index (GWE)", "gwe");
    ("Greenwashing Index (GWGHG)", "gwghg") ]%string.

(** The options of the select box of line 211, and line 216. *)
Definition metric_options : list string := Dict.keys metric_map.

Definition select_metric (metric_label : string) : outcome string :=
  Dict.getitem metric_map metric_label.

Definition color_metric_map : Dict.dict string :=
  [ ("Greenwashing Index (GWE)", "gwe");
    ("Greenwashing Index (GWGHG)", "gwghg") ]%string.

(** The options of the select box of line 282, and line 287. *)
Definition color_options : list string := Dict.keys color_metric_map.

Definition select_y_metric (color_label : string) : outcome string :=
  Dict.getitem color_metric_map color_label.

(** The names of the metric columns of the two tables. *)
Definition metric_column (m : Ranking.metric_name) : string :=
  match m with
  | Ranking.m_ccii => "ccii"
  | Ranking.m_gwe => "gwe"
  | Ranking.m_gwghg => "gwghg"
  end.

Definition y_column (y : Quadrant.y_name) : string :=
  match y with
  | Quadrant.y_gwe => "gwe"
  | Quadrant.y_gwghg => "gwghg"
  end.

End Config.

(* ------------------------------------------------------------------ *)
(** ** The year selector of the map (app.py, lines 139-144) *)

(** [Series.unique()]: the distinct values, in the order in which they
    first appear. *)
Fixpoint unique (ys : list Z) : list Z :=
  match ys with
  | [] => []
  | y :: ys' => y :: filter (fun z => negb (z =? y)) (unique ys')
  end.

Fixpoint insert_year (y : Z) (l : list Z) : list Z :=
  match l with
  | [] => [y]
  | z :: l' => if y <=? z then y :: l else z :: insert_year y l'
  end.

(** [sorted(...)] on whole numbers. *)
Fixpoint sorted (l : list Z) : list Z :=
  match l with
  | [] => []
  | y :: l' => insert_year y (sorted l')
  end.

Module YearMap.

Import Ranking.

(** The options of the select box: [sorted(df["year"].unique())]. *)
Definition year_options (df : list row) : list Z :=
  sorted (unique (map year df)).

(** [df[df["year"] == year]]. *)
Definition df_plot (df : list row) (yr : Z) : list row :=
  filter (fun r => year r =? yr) df.

End YearMap.

(* ------------------------------------------------------------------ *)
(** ** The frames of the animated scatter plot (app.py, lines 292-301) *)

Module Scatter.

Import Quadrant.

(** The marker of one row. *)
Definition marker (y_metric : y_name) (r : row) : point :=
  {| label := industry r; px := ccii r; py := col y_metric r |}.

(** [animation_frame="year"]: plotly express groups the rows by year,
    in the order in which the years first appear, and names each group
    by its year. *)
Definition frame_list (df_ind : list row) (y_metric : y_name)
    : list (Z * list point) :=
  map (fun yr => (yr, frame_points df_ind y_metric yr))
      (unique (map year df_ind)).

(** [fig.data]: the markers the figure shows at first, those of the
    first group. *)
Definition data (df_ind : list row) (y_metric : y_name) : list point :=
  match frame_list df_ind y_metric with
  | [] => []
  | f :: _ => snd f
  end.

(** [fig.frames]: the groups, when there are at least two; a figure of
    one group has no frame. *)
Definition frames (df_ind : list row) (y_metric : y_name)
    : list (Z * list point) :=
  if (length (frame_list df_ind y_metric) <=? 1)%nat
  then []
  else frame_list df_ind y_metric.

End Scatter.

(* ------------------------------------------------------------------ *)
(** ** The two click counters (app.py, lines 380-395) *)

Module Counter.

Definition AttributeError : exn := PyExc "AttributeError".

(** [st.session_state], as far as the script uses it: whole numbers by
    name. *)
Definition session_state : Type := Dict.dict Z.

(** [st.session_state.name]. *)
Definition getattr (ss : session_state) (name : string) : outcome Z :=
  match Dict.getitem ss name with
  | Returns v => Returns v
  | Raises _ => Raises AttributeError
  end.

(** [if name not in st.session_state: st.session_state.name = 0]. *)
Definition init (ss : session_state) (name : string) : session_state :=
  if Dict.contains ss name then ss else Dict.setitem ss name 0.

(** [if st.button(...): st.session_state.name += 1]. *)
Definition click (clicked : bool) (name : string) (ss : session_state)
    : outcome session_state :=
  if clicked
  then v <- getattr ss name ;; Returns (Dict.setitem ss name (v + 1))
  else Returns ss.

(** What the two [st.write] calls show. *)
Record shown : Type := {
  likes : Z;
  really_likes : Z
}.

(** One run of lines 380-395; the arguments say which button, if any,
    was clicked to start the run. *)
Definition counters (like_clicked star_clicked : bool) (ss : session_state)
    : outcome (session_state * shown) :=
  let ss := init ss "like_count" in
  let ss := init ss "star_count" in
  ss <- click like_clicked "like_count" ss ;;
  l <- getattr ss "like_count" ;;
  ss <- click star_clicked "star_count" ss ;;
  s <- getattr ss "star_count" ;;
  Returns (ss, {| likes := l; really_likes := s |}).

(** A session: the script runs again on every interaction, with the
    session state the run before has left. *)
Fixpoint reruns (evs : list (bool * bool)) (ss : session_state)
    : outcome session_state :=
  match evs with
  | [] => Returns ss
  | (l, s) :: evs' => r <- counters l s ss ;; reruns evs' (fst r)
  end.

(** The number of runs started by a click on the first, and on the
    second, button. *)
Definition like_clicks (evs : list (bool * bool)) : Z :=
  Z.of_nat (length (filter fst evs)).

Definition star_clicks (evs : list (bool * bool)) : Z :=
  Z.of_nat (length (filter snd evs)).

(** The value of a counter a run starts from. *)
Definition start_value (ss : session_state) (name : string) : Z :=
  match Dict.getitem ss name with
  | Returns v => v
  | Raises _ => 0
  end.

End Counter.

(* ------------------------------------------------------------------ *)
(** ** The arithmetic of the machine: IEEE 754 binary64 *)

Module Binary64.

(** A [float64] value: a NaN, an infinity, a signed zero, or a finite
    number [(-1)^s * m * 2^e]. *)
Definition float : Type := spec_float.

Definition prec : Z := 53.
Definition emax : Z := 1024.

Definition nan : float := S754_nan.

(** [0.0], and the value of the whole number [0] of line 311. *)
Definition zero : float := S754_zero false.

Definition isnan (x : float) : bool :=
  match x with
  | S754_nan => true
  | _ => false
  end.

(** [x * y], [x + y] and [x / y], rounded to the nearest value, ties to
    even. *)
Definition mul : float -> float -> float := SFmul prec emax.
Definition add : float -> float -> float := SFadd prec emax.
Definition div : float -> float -> float := SFdiv prec emax.

(** [x <= y]; every comparison with a NaN is false. *)
Definition leb : float -> float -> bool := SFleb.

(** The float of a whole number. *)
Definition of_Z (z : Z) : float := binary_normalize prec emax z 0 false.

(** The literals [0.6] and [0.9] of lines 325-334: the binary64 values
    nearest to them, 5404319552844595 / 2^53 and
    8106479329266893 / 2^53. *)
Definition c06 : float := S754_finite false 5404319552844595 (-53).
Definition c09 : float := S754_finite false 8106479329266893 (-53).


(** [max] and [min] of two values that are not NaN, as the reductions of
    numpy step: the value held is kept unless the next one is strictly
    beyond it. *)
Definition fmax (a b : float) : float := if leb b a then a else b.
Definition fmin (a b : float) : float := if leb a b then a else b.

(** The sum of fewer than eight values as numpy computes it: from 0,
    from left to right. *)
Definition sum_small (l : list float) : float := fold_left add l zero.

End Binary64.

(* ------------------------------------------------------------------ *)
(** ** The quadrant layout in binary64 (app.py, lines 311-338)

    [Quadrant] reads the cells as exact numbers, which is enough for
    what does not depend on rounding: which values are NaN, what the
    frames share, on which side of zero a product lies.  The values
    themselves are those of this module: the same statements, with the
    arithmetic of the machine. *)

Module Quadrant64.

Import Binary64.

(** A row of [industrylevel.csv] after [load_industry_data]. *)
Record row : Type := {
  industry : string;
  year : Z;
  ccii : float;
  gwe : float;
  gwghg : float
}.

Definition col (y_metric : Quadrant.y_name) (r : row) : float :=
  match y_metric with
  | Quadrant.y_gwe => gwe r
  | Quadrant.y_gwghg => gwghg r
  end.

(** The present values of a column. *)
Definition dropna (s : list float) : list float :=
  filter (fun x => negb (isnan x)) s.

(** The column with 0 in the place of each missing value. *)
Definition fillna0 (s : list float) : list float :=
  map (fun x => if isnan x then zero else x) s.

Section Sum.

(** numpy's sum of a [float64] array ([add.reduce]): the additions are
    those of binary64; their grouping is numpy's own (pairwise, in
    blocks). *)
Variable np_sum : list float -> float.

(** pandas' [nanops.nanmean]: the sum of the column, with 0 for the
    missing values, divided by the number of present values; NaN when
    there is none. *)
Definition nanmean (s : list float) : float :=
  match length (dropna s) with
  | O => nan
  | n => div (np_sum (fillna0 s)) (of_Z (Z.of_nat n))
  end.

(** [nanops.nanmax] and [nanops.nanmin]: the greatest and the least of
    the present values; NaN when there is none. *)
Definition nanmax (s : list float) : float :=
  match dropna s with
  | [] => nan
  | v :: vs => fold_left fmax vs v
  end.

Definition nanmin (s : list float) : float :=
  match dropna s with
  | [] => nan
  | v :: vs => fold_left fmin vs v
  end.

Definition series_mean (s : list float) : outcome float := Returns (nanmean s).
Definition series_max (s : list float) : outcome float := Returns (nanmax s).
Definition series_min (s : list float) : outcome float := Returns (nanmin s).

Record shape : Type := {
  x0 : float;
  x1 : float;
  y0 : float;
  y1 : float
}.

Record annotation : Type := {
  ann_x : float;
  ann_y : float;
  ann_text : string
}.

Record layout : Type := {
  x_center : float;
  y_center : float;
  shapes : list shape;
  annotations : list annotation
}.

(** Lines 311-338, statement by statement. *)
Definition quadrant_layout (df_ind : list row) (y_metric : Quadrant.y_name)
    : outcome layout :=
  let xs := map ccii df_ind in
  let ys := map (col y_metric) df_ind in
  let x_center := zero in
  y_center <- series_mean ys ;;
  v_y0 <- series_min ys ;;
  v_y1 <- series_max ys ;;
  h_x0 <- series_min xs ;;
  h_x1 <- series_max xs ;;
  a1x <- series_max xs ;; a1y <- series_max ys ;;
  a2x <- series_min xs ;; a2y <- series_max ys ;;
  a3x <- series_min xs ;; a3y <- series_min ys ;;
  a4x <- series_max xs ;; a4y <- series_min ys ;;
  Returns {|
    x_center := x_center;
    y_center := y_center;
    shapes :=
      [ {| x0 := x_center; x1 := x_center; y0 := v_y0; y1 := v_y1 |};
        {| x0 := h_x0; x1 := h_x1; y0 := y_center; y1 := y_center |} ];
    annotations :=
      [ {| ann_x := mul a1x c06; ann_y := mul a1y c09;
           ann_text := "High CCII<br>High Greenwashing<br>(Symbolic Commitment)" |};
        {| ann_x := mul a2x c06; ann_y := mul a2y c09;
           ann_text := "Low CCII<br>High Greenwashing<br>(Formalist / Passive)" |};
        {| ann_x := mul a3x c06; ann_y := mul a3y c09;
           ann_text := "Low CCII<br>Low Greenwashing<br>(Low-risk Industry)" |};
        {| ann_x := mul a4x c06; ann_y := mul a4y c09;
           ann_text := "High CCII<br>Low Greenwashing<br>(Substantive Commitment)" |} ]
  |}.

Record point : Type := {
  label : string;
  px : float;
  py : float
}.

Definition frame_points (df_ind : list row) (y_metric : Quadrant.y_name)
    (yr : Z) : list point :=
  map (fun r => {| label := industry r; px := ccii r; py := col y_metric r |})
      (filter (fun r => year r =? yr) df_ind).

Record QuadrantFrame : Type := {
  frame_year : Z;
  points : list point;
  x_ref : float;
  y_ref : float;
  anchors : list annotation
}.

Definition compute_quadrant_layout (df_ind : list row)
    (y_metric : Quadrant.y_name) : outcome (Z -> QuadrantFrame) :=
  lay <- quadrant_layout df_ind y_metric ;;
  Returns (fun yr =>
    {| frame_year := yr;
       points := frame_points df_ind y_metric yr;
       x_ref := x_center lay;
       y_ref := y_center lay;
       anchors := annotations lay |}).

End Sum.

(** The position of an anchor, and the anchor with its text. *)
Definition position (a : annotation) : float * float := (ann_x a, ann_y a).

Definition labelled (a : annotation) : string * (float * float) :=
  (ann_text a, position a).

(** The extrema of a column, in the words of the specification: a
    present value of the column that no present value exceeds; NaN for a
    column without a present value. *)
Definition greatest (s : list float) (m : float) : Prop :=
  In m s /\ isnan m = false /\
  forall v, In v s -> isnan v = false -> leb v m = true.

Definition least (s : list float) (m : float) : Prop :=
  In m s /\ isnan m = false /\
  forall v, In v s -> isnan v = false -> leb m v = true.

Definition column_max (s : list float) (m : float) : Prop :=
  (dropna s = [] /\ m = nan) \/ greatest s m.

Definition column_min (s : list float) (m : float) : Prop :=
  (dropna s = [] /\ m = nan) \/ least s m.

(** The table of the example: CCII between -2 and 4, GWE between 0 and
    10, with a mean GWE of 4. *)
Definition example_table : list row :=
  [ {| industry := "Energy"; year := 2020;
       ccii := of_Z (-2); gwe := of_Z 0; gwghg := nan |};
    {| industry := "Retail"; year := 2020;
       ccii := of_Z 4; gwe := of_Z 10; gwghg := nan |};
    {| industry := "Energy"; year := 2021;
       ccii := of_Z 1; gwe := of_Z 2; gwghg := nan |} ].

End Quadrant64.

(* ================================================================== *)
(** * Properties *)

(* ------------------------------------------------------------------ *)
(** ** Lists and positions *)

Section ListFacts.

Context {A : Type}.

(** A predicate that holds wherever [p] does, and at one more element of
    the list, selects strictly more elements. *)
Lemma filter_length_lt (p q : A -> bool) (l : list A) (a : A) :
  (forall x, In x l -> p x = true -> q x = true) ->
  In a l -> p a = false -> q a = true ->
  (length (filter p l) < length (filter q l))%nat.
Proof.
  assert (Hle : forall l', (forall x, In x l' -> p x = true -> q x = true) ->
                 (length (filter p l') <= length (filter q l'))%nat).
  { induction l' as [|x l' IH]; intros Himp; simpl; [lia|].
    assert (IH' := IH (fun y Hy => Himp y (or_intror Hy))).
    destruct (p x) eqn:Hp.
    - rewrite (Himp x (or_introl eq_refl) Hp). simpl. lia.
    - destruct (q x); simpl; lia. }
  induction l as [|x l IH]; intros Himp Hin Hpa Hqa; [contradiction|].
  simpl. destruct Hin as [-> | Hin].
  - rewrite Hpa, Hqa. simpl.
    assert (H := Hle l (fun y Hy => Himp y (or_intror Hy))). lia.
  - assert (IH' := IH (fun y Hy => Himp y (or_intror Hy)) Hin Hpa Hqa).
    destruct (p x) eqn:Hp.
    + rewrite (Himp x (or_introl eq_refl) Hp). simpl. lia.
    + destruct (q x); simpl; lia.
Qed.

Lemma filter_true (l : list A) : filter (fun _ => true) l = l.
Proof. induction l as [|x l IH]; simpl; congruence. Qed.

Lemma filter_length_lt_all (p : A -> bool) (l : list A) (a : A) :
  In a l -> p a = false -> (length (filter p l) < length l)%nat.
Proof.
  intros Hin Hp.
  rewrite <- (filter_true l) at 2.
  apply filter_length_lt with (a := a); auto.
Qed.

(** Filtering twice is filtering by the conjunction. *)
Lemma filter_filter (p q : A -> bool) (l : list A) :
  filter p (filter q l) = filter (fun x => q x && p x) l.
Proof.
  induction l as [|x l IH]; simpl; [reflexivity|].
  destruct (q x); simpl; [destruct (p x)|]; congruence.
Qed.

Lemma Permutation_filter (p : A -> bool) (l l' : list A) :
  Permutation l l' -> Permutation (filter p l) (filter p l').
Proof.
  induction 1 as [|x l l' _ IH|x y l|l l' l'' _ IH1 _ IH2]; simpl.
  - constructor.
  - destruct (p x); auto.
  - destruct (p x), (p y); auto using perm_swap.
  - eapply perm_trans; eassumption.
Qed.

Lemma filter_map_comm {B : Type} (f : A -> B) (p : B -> bool) (l : list A) :
  filter p (map f l) = map f (filter (fun x => p (f x)) l).
Proof.
  induction l as [|x l IH]; simpl; [reflexivity|].
  destruct (p (f x)); simpl; congruence.
Qed.

Lemma NoDup_map_in {B : Type} (f : A -> B) (l : list A) :
  (forall x y, In x l -> In y l -> f x = f y -> x = y) ->
  NoDup l -> NoDup (map f l).
Proof.
  induction l as [|x l IH]; intros Hinj Hnd; simpl; [constructor|].
  inversion Hnd as [|? ? Hx Hl]; subst. constructor.
  - intros Hin. apply in_map_iff in Hin. destruct Hin as [y [Hy Hin]].
    apply Hx. rewrite (Hinj x y); simpl; auto.
  - apply IH; auto. intros a b Ha Hb. apply Hinj; simpl; auto.
Qed.

End ListFacts.

Section EnumerateFacts.

Context {A : Type}.

(** Positions: [enumerate] lists exactly the pairs (position, element). *)
Lemma nth_error_combine_seq (l : list A) (s i : nat) :
  nth_error (combine (seq s (length l)) l) i
  = option_map (pair (s + i)%nat) (nth_error l i).
Proof.
  revert s i. induction l as [|x l IH]; intros s i; simpl.
  - destruct i; reflexivity.
  - destruct i; simpl.
    + now rewrite Nat.add_0_r.
    + rewrite IH. now rewrite Nat.add_succ_r.
Qed.

Lemma nth_error_enumerate (l : list A) (i : nat) :
  nth_error (enumerate l) i = option_map (pair i) (nth_error l i).
Proof. unfold enumerate. now rewrite nth_error_combine_seq. Qed.

Lemma In_enumerate (l : list A) (i : nat) (x : A) :
  In (i, x) (enumerate l) <-> nth_error l i = Some x.
Proof.
  split.
  - intros Hin. apply In_nth_error in Hin. destruct Hin as [n Hn].
    rewrite nth_error_enumerate in Hn.
    destruct (nth_error l n) eqn:E; simpl in Hn; [|discriminate].
    now inversion Hn; subst.
  - intros Hn. apply nth_error_In with (n := i).
    rewrite nth_error_enumerate, Hn. reflexivity.
Qed.

Lemma enumerate_functional (l : list A) (i : nat) (x y : A) :
  In (i, x) (enumerate l) -> In (i, y) (enumerate l) -> x = y.
Proof. rewrite !In_enumerate. congruence. Qed.

Lemma map_fst_enumerate (l : list A) :
  map fst (enumerate l) = seq 0 (length l).
Proof.
  unfold enumerate. generalize 0%nat.
  induction l as [|x l IH]; intros s; simpl; [reflexivity|].
  now rewrite IH.
Qed.

Lemma map_snd_enumerate (l : list A) : map snd (enumerate l) = l.
Proof.
  unfold enumerate. generalize 0%nat.
  induction l as [|x l IH]; intros s; simpl; [reflexivity|].
  now rewrite IH.
Qed.

Lemma NoDup_enumerate (l : list A) : NoDup (enumerate l).
Proof.
  apply (NoDup_map_inv fst). rewrite map_fst_enumerate. apply seq_NoDup.
Qed.

Lemma filter_snd_enumerate_length (p : A -> bool) (l : list A) :
  length (filter (fun e => p (snd e)) (enumerate l)) = length (filter p l).
Proof.
  transitivity (length (filter p (map snd (enumerate l)))).
  - now rewrite filter_map_comm, length_map.
  - now rewrite map_snd_enumerate.
Qed.

End EnumerateFacts.

(* ------------------------------------------------------------------ *)
(** ** The ranking *)

Module RankingFacts.

Import Ranking.

Lemma Qltb_lt (x y : Q) : Qltb x y = true <-> (x < y)%Q.
Proof.
  unfold Qltb. rewrite negb_true_iff. split.
  - intros H. apply Qnot_le_lt. intros Hle.
    apply Qle_bool_iff in Hle. congruence.
  - intros H. destruct (Qle_bool y x) eqn:E; [|reflexivity].
    apply Qle_bool_iff in E. lra.
Qed.

Lemma outranks_iff metric i r j r' :
  outranks metric i r (j, r') = true <->
  year r' = year r /\
  exists v' v, col metric r' = Num v' /\ col metric r = Num v /\
               ((v < v')%Q \/ (v' == v /\ (j < i)%nat)).
Proof.
  unfold outranks. rewrite andb_true_iff, Z.eqb_eq.
  split; intros [Hy H]; split; try assumption.
  - destruct (col metric r') as [|v'], (col metric r) as [|v];
      try discriminate.
    exists v', v. repeat split.
    apply orb_true_iff in H. destruct H as [H | H].
    + left. now apply Qltb_lt.
    + right. apply andb_true_iff in H. destruct H as [H1 H2].
      split; [now apply Qeq_bool_iff | now apply Nat.ltb_lt].
  - destruct H as [v' [v [-> [-> H]]]].
    apply orb_true_iff. destruct H as [H | [H1 H2]].
    + left. now apply Qltb_lt.
    + right. apply andb_true_iff.
      split; [now apply Qeq_bool_iff | now apply Nat.ltb_lt].
Qed.

(** "Comes before" is a strict order on the positions of a table, total
    on the present values of one year. *)
Lemma outranks_irrefl metric i r : outranks metric i r (i, r) = false.
Proof.
  destruct (outranks metric i r (i, r)) eqn:E; [|reflexivity].
  apply outranks_iff in E.
  destruct E as [_ [v' [v [H1 [H2 H]]]]].
  rewrite H1 in H2. inversion H2; subst.
  destruct H as [H | [_ H]]; [lra | lia].
Qed.

Lemma outranks_trans metric i r j r' k r'' :
  outranks metric i r (j, r') = true ->
  outranks metric j r' (k, r'') = true ->
  outranks metric i r (k, r'') = true.
Proof.
  rewrite !outranks_iff.
  intros [Hy1 [v1 [v [E1 [E H1]]]]] [Hy2 [v2 [v1' [E2 [E1' H2]]]]].
  rewrite E1 in E1'. inversion E1'; subst v1'.
  split; [congruence|].
  exists v2, v. repeat split; try assumption.
  destruct H1 as [H1 | [H1 L1]], H2 as [H2 | [H2 L2]].
  - left. lra.
  - left. lra.
  - left. lra.
  - right. split; [lra | lia].
Qed.

Lemma outranks_total metric i r j r' v v' :
  year r = year r' -> col metric r = Num v -> col metric r' = Num v' ->
  i <> j ->
  outranks metric i r (j, r') = true \/ outranks metric j r' (i, r) = true.
Proof.
  intros Hy E E' Hij. rewrite !outranks_iff.
  destruct (Q_dec v v') as [[H | H] | H].
  - left. split; [congruence|]. exists v', v. auto.
  - right. split; [congruence|]. exists v, v'. auto.
  - destruct (Nat.lt_total i j) as [L | [L | L]]; [|contradiction|].
    + right. split; [congruence|]. exists v, v'. auto.
    + left. split; [congruence|]. exists v', v.
      repeat split; auto. right. split; [lra | assumption].
Qed.

Lemma place_lt metric df e1 e2 :
  In e1 (enumerate df) ->
  outranks metric (fst e2) (snd e2) e1 = true ->
  (place metric df e1 < place metric df e2)%nat.
Proof.
  intros Hin H. unfold place.
  apply filter_length_lt with (a := e1); auto.
  - intros [k r''] _ Hk. destruct e1 as [j r'].
    eapply outranks_trans; eassumption.
  - destruct e1. apply outranks_irrefl.
Qed.

Lemma rank_first_num metric df i r v :
  col metric r = Num v ->
  rank_first metric df i r = of_nat (S (place metric df (i, r))).
Proof. intros E. unfold rank_first. now rewrite E. Qed.

Lemma nth_error_assign_rank metric df i r :
  nth_error df i = Some r ->
  nth_error (assign_rank metric df) i
  = Some {| base := r; rank := rank_first metric df i r |}.
Proof.
  intros E. unfold assign_rank.
  rewrite nth_error_map, nth_error_enumerate, E. reflexivity.
Qed.

Lemma nth_error_rank_column metric df i r :
  nth_error df i = Some r ->
  nth_error (rank_column metric df) i = Some (rank_first metric df i r).
Proof.
  intros E. unfold rank_column.
  now rewrite nth_error_map, (nth_error_assign_rank _ _ _ _ E).
Qed.

(** C2.  Two rows of one year with equal metric values: the one met first
    in the input gets the strictly lower rank; the ranked table is a
    function of the input table; and the rows (A, 2020, ccii=5),
    (B, 2020, ccii=5), (C, 2020, ccii=3), in that order, get the ranks
    A=1, B=2, C=3. *)
Theorem tie_break_first_occurrence :
  (forall metric df i j ri rj a b,
      nth_error df i = Some ri -> nth_error df j = Some rj ->
      (i < j)%nat -> year ri = year rj ->
      col metric ri = Num a -> col metric rj = Num b -> a == b ->
      exists p q,
        nth_error (rank_column metric df) i = Some (of_nat p) /\
        nth_error (rank_column metric df) j = Some (of_nat q) /\
        (p < q)%nat) /\
  (forall metric df df', df = df' -> df_rank metric df = df_rank metric df') /\
  (forall g1 h1 g2 h2 g3 h3,
      let df :=
        [ {| country := "A"; year := 2020; ccii := Num 5; gwe := g1; gwghg := h1 |};
          {| country := "B"; year := 2020; ccii := Num 5; gwe := g2; gwghg := h2 |};
          {| country := "C"; year := 2020; ccii := Num 3; gwe := g3; gwghg := h3 |} ] in
      rank_column m_ccii df = [Num 1; Num 2; Num 3] /\
      map (fun rr => (country (base rr), rank rr)) (df_rank m_ccii df)
      = [("A"%string, Num 1); ("B"%string, Num 2); ("C"%string, Num 3)]).
Proof.
  split; [|split].
  - intros metric df i j ri rj a b Hi Hj Hlt Hy Ea Eb Hab.
    exists (S (place metric df (i, ri))), (S (place metric df (j, rj))).
    rewrite (nth_error_rank_column _ _ _ _ Hi), (nth_error_rank_column _ _ _ _ Hj).
    rewrite (rank_first_num _ _ _ _ _ Ea), (rank_first_num _ _ _ _ _ Eb).
    repeat split. apply -> Nat.succ_lt_mono.
    apply place_lt.
    + now apply In_enumerate.
    + simpl. apply outranks_iff. split; [assumption|].
      exists a, b. repeat split; auto.
  - intros metric df df' ->. reflexivity.
  - intros g1 h1 g2 h2 g3 h3. split; reflexivity.
Qed.

(** The amended rule of C2 at the table of its example. *)
Lemma tie_break_first_occurrence_witness :
  exists p q,
    nth_error (rank_column m_ccii
      [ {| country := "A"; year := 2020; ccii := Num 5; gwe := NaN; gwghg := NaN |};
        {| country := "B"; year := 2020; ccii := Num 5; gwe := NaN; gwghg := NaN |};
        {| country := "C"; year := 2020; ccii := Num 3; gwe := NaN; gwghg := NaN |} ])
      0 = Some (of_nat p) /\
    nth_error (rank_column m_ccii
      [ {| country := "A"; year := 2020; ccii := Num 5; gwe := NaN; gwghg := NaN |};
        {| country := "B"; year := 2020; ccii := Num 5; gwe := NaN; gwghg := NaN |};
        {| country := "C"; year := 2020; ccii := Num 3; gwe := NaN; gwghg := NaN |} ])
      1 = Some (of_nat q) /\
    (p < q)%nat.
Proof.
  apply (proj1 tie_break_first_occurrence m_ccii _ 0%nat 1%nat
           {| country := "A"; year := 2020; ccii := Num 5; gwe := NaN; gwghg := NaN |}
           {| country := "B"; year := 2020; ccii := Num 5; gwe := NaN; gwghg := NaN |}
           5%Q 5%Q);
    try reflexivity.
  lia.
Defined.

Lemma outranks_in_group metric y e x :
  in_group metric y e = true ->
  outranks metric (fst e) (snd e) x = true ->
  in_group metric y x = true.
Proof.
  destruct e as [i r], x as [j r']. unfold in_group. simpl.
  intros Hg Ho. apply outranks_iff in Ho.
  apply andb_true_iff in Hg. destruct Hg as [Hy _]. apply Z.eqb_eq in Hy.
  destruct Ho as [Hy' [v' [v [E' _]]]].
  rewrite E'. apply andb_true_iff. split; [|reflexivity].
  apply Z.eqb_eq. congruence.
Qed.

Lemma place_in_group metric df y e :
  in_group metric y e = true ->
  place metric df e
  = length (filter (outranks metric (fst e) (snd e))
                   (filter (in_group metric y) (enumerate df))).
Proof.
  intros Hg. unfold place. rewrite filter_filter. f_equal.
  apply filter_ext. intros x.
  destruct (outranks metric (fst e) (snd e) x) eqn:E.
  - now rewrite (outranks_in_group _ _ _ _ Hg E).
  - now rewrite andb_false_r.
Qed.

Lemma place_inj metric df y e1 e2 :
  In e1 (filter (in_group metric y) (enumerate df)) ->
  In e2 (filter (in_group metric y) (enumerate df)) ->
  place metric df e1 = place metric df e2 -> e1 = e2.
Proof.
  intros H1 H2 Heq.
  apply filter_In in H1. destruct H1 as [In1 G1].
  apply filter_In in H2. destruct H2 as [In2 G2].
  destruct e1 as [i r], e2 as [j r'].
  destruct (Nat.eq_dec i j) as [-> | Hij].
  - f_equal. eapply enumerate_functional; eassumption.
  - exfalso. unfold in_group in G1, G2. simpl in G1, G2.
    apply andb_true_iff in G1. destruct G1 as [Y1 N1].
    apply andb_true_iff in G2. destruct G2 as [Y2 N2].
    apply Z.eqb_eq in Y1. apply Z.eqb_eq in Y2.
    destruct (col metric r) as [|v] eqn:E; [discriminate|].
    destruct (col metric r') as [|v'] eqn:E'; [discriminate|].
    destruct (outranks_total metric i r j r' v v') as [H | H];
      try congruence.
    + assert (L := place_lt metric df (j, r') (i, r) In2 H). lia.
    + assert (L := place_lt metric df (i, r) (j, r') In1 H). lia.
Qed.

(** Within one year the places of the present rows are 0, 1, ..., n-1,
    each taken once. *)
Lemma places_of_group metric df y :
  Permutation
    (map (fun e => S (place metric df e))
         (filter (in_group metric y) (enumerate df)))
    (seq 1 (group_count metric y df)).
Proof.
  set (G := filter (in_group metric y) (enumerate df)).
  assert (Hn : length G = group_count metric y df).
  { unfold G, group_count.
    apply (filter_snd_enumerate_length
             (fun r => (year r =? y) && notna (col metric r))). }
  apply NoDup_Permutation_bis.
  - apply NoDup_map_in.
    + intros e1 e2 H1 H2 Heq. apply (place_inj metric df y); auto.
    + apply NoDup_filter, NoDup_enumerate.
  - rewrite length_seq, length_map. lia.
  - intros k Hk. apply in_map_iff in Hk. destruct Hk as [e [<- He]].
    apply in_seq. split; [lia|].
    assert (Hg : in_group metric y e = true).
    { apply filter_In in He. tauto. }
    rewrite (place_in_group _ _ _ _ Hg). fold G. rewrite <- Hn.
    assert (L : (length (filter (outranks metric (fst e) (snd e)) G)
                 < length G)%nat).
    { apply filter_length_lt_all with (a := e); [assumption|].
      destruct e. apply outranks_irrefl. }
    lia.
Qed.

Lemma fle_of_nat (n m : nat) : fle (of_nat n) (of_nat m) = (n <=? m)%nat.
Proof.
  unfold fle, of_nat. apply eq_true_iff_eq.
  rewrite Qle_bool_iff, Nat.leb_le, <- Zle_Qle. lia.
Qed.

Lemma top10_of_nat r n :
  top10 {| base := r; rank := of_nat n |} = (n <=? 10)%nat.
Proof. unfold top10. simpl. apply (fle_of_nat n 10). Qed.

Lemma filter_seq_le (k n : nat) :
  filter (fun i => (i <=? k)%nat) (seq 1 n) = seq 1 (Nat.min n k).
Proof.
  induction n as [|n IH]; [reflexivity|].
  rewrite seq_S, filter_app, IH.
  cbn [filter Nat.add].
  destruct (Nat.leb_spec (S n) k) as [L | L].
  - rewrite (Nat.min_l n k) by lia. rewrite (Nat.min_l (S n) k) by lia.
    now rewrite seq_S.
  - rewrite app_nil_r. f_equal. lia.
Qed.

(** The sort of the last line only reorders the rows. *)
Lemma insert_sorted_perm x l : Permutation (insert_sorted x l) (x :: l).
Proof.
  induction l as [|y l IH]; simpl; [reflexivity|].
  destruct (key_le x y); [reflexivity|].
  rewrite IH. apply perm_swap.
Qed.

Lemma sort_values_perm l : Permutation (sort_values l) l.
Proof.
  induction l as [|x l IH]; simpl; [reflexivity|].
  now rewrite insert_sorted_perm, IH.
Qed.

(** The ranks kept for one year, before the final sort. *)
Lemma kept_ranks_of_year metric df y :
  ranks_of_year y (filter top10 (assign_rank metric df))
  = map of_nat
      (filter (fun k => (k <=? 10)%nat)
         (map (fun e => S (place metric df e))
              (filter (in_group metric y) (enumerate df)))).
Proof.
  unfold ranks_of_year, assign_rank.
  rewrite filter_filter, !filter_map_comm, !map_map. simpl.
  rewrite filter_filter.
  assert (Hnum : forall e, in_group metric y e = true ->
            rank_first metric df (fst e) (snd e)
            = of_nat (S (place metric df e))).
  { intros [i r] Hg. unfold in_group in Hg. simpl in *.
    apply andb_true_iff in Hg. destruct Hg as [_ Hg].
    destruct (col metric r) eqn:E; [discriminate|].
    eapply rank_first_num; eassumption. }
  transitivity
    (map (fun e => rank_first metric df (fst e) (snd e))
       (filter (fun e => in_group metric y e &&
                         (S (place metric df e) <=? 10)%nat)
               (enumerate df))).
  - f_equal. apply filter_ext. intros [i r].
    unfold in_group, top10, rank_first. cbn [fst snd base rank].
    destruct (col metric r) eqn:E; cbn [notna].
    + now rewrite andb_false_r.
    + rewrite (fle_of_nat _ 10). rewrite andb_true_r. apply andb_comm.
  - apply map_ext_in. intros e He. apply filter_In in He.
    destruct He as [_ He]. apply andb_true_iff in He. now apply Hnum.
Qed.

Lemma of_nat_inj (n m : nat) : of_nat n = of_nat m -> n = m.
Proof. unfold of_nat, inject_Z. intros H. inversion H. lia. Qed.

Lemma df_rank_In metric df rr :
  In rr (df_rank metric df) <->
  In rr (assign_rank metric df) /\ top10 rr = true.
Proof.
  unfold df_rank. rewrite <- filter_In. split; intros H.
  - eapply Permutation_in; [apply sort_values_perm | exact H].
  - eapply Permutation_in; [symmetry; apply sort_values_perm | exact H].
Qed.

(** C1, amended.  In the table of the bump chart the ranks of the rows of
    one year are 1, 2, ..., m, each once, where m is the smaller of 10 and
    the number of rows of that year whose metric is present; every row of
    the table has a rank of at most 10, and a year with fewer than 10 such
    rows has that many rows and no more. *)
Theorem top10_ranks_contiguous metric df y :
  let m := Nat.min (group_count metric y df) 10 in
  Permutation (ranks_of_year y (df_rank metric df)) (map of_nat (seq 1 m)) /\
  NoDup (ranks_of_year y (df_rank metric df)) /\
  length (ranks_of_year y (df_rank metric df)) = m /\
  (forall rr, In rr (df_rank metric df) -> fle (rank rr) (Num 10) = true).
Proof.
  intros m.
  assert (HP : Permutation (ranks_of_year y (df_rank metric df))
                           (map of_nat (seq 1 m))).
  { transitivity (ranks_of_year y (filter top10 (assign_rank metric df))).
    - unfold ranks_of_year, df_rank.
      apply Permutation_map, Permutation_filter, sort_values_perm.
    - rewrite kept_ranks_of_year. apply Permutation_map.
      unfold m. rewrite <- filter_seq_le.
      apply Permutation_filter, places_of_group. }
  repeat split.
  - exact HP.
  - apply (Permutation_NoDup (Permutation_sym HP)).
    apply NoDup_map_in; [|apply seq_NoDup].
    intros a b _ _. apply of_nat_inj.
  - rewrite (Permutation_length HP). now rewrite length_map, length_seq.
  - intros rr Hrr. apply df_rank_In in Hrr. apply Hrr.
Qed.

(** C1 as stated fails: of two rows of 2020, one with a missing metric,
    one only is ranked, although the group has two rows. *)
Lemma top10_ranks_group_size_counterexample :
  let df :=
    [ {| country := "A"; year := 2020; ccii := NaN; gwe := NaN; gwghg := NaN |};
      {| country := "B"; year := 2020; ccii := Num 7; gwe := NaN; gwghg := NaN |} ] in
  group_size 2020 df = 2%nat /\
  ranks_of_year 2020 (df_rank m_ccii df) = [Num 1] /\
  ~ Permutation (ranks_of_year 2020 (df_rank m_ccii df))
                (map of_nat (seq 1 (Nat.min (group_size 2020 df) 10))).
Proof.
  cbv zeta. split; [reflexivity|]. split; [reflexivity|].
  intros H. apply Permutation_length in H. vm_compute in H. discriminate.
Qed.

(** The order on strings is transitive. *)
Lemma ascii_compare_refl a : Ascii.compare a a = Eq.
Proof. unfold Ascii.compare. apply N.compare_refl. Qed.

Lemma string_compare_refl s : String.compare s s = Eq.
Proof.
  induction s as [|a s IH]; simpl; [reflexivity|].
  now rewrite ascii_compare_refl.
Qed.

Lemma string_compare_lt_trans s1 s2 s3 :
  String.compare s1 s2 = Lt -> String.compare s2 s3 = Lt ->
  String.compare s1 s3 = Lt.
Proof.
  revert s2 s3.
  induction s1 as [|a s1 IH]; intros [|b s2] [|c s3]; simpl;
    try discriminate; try reflexivity.
  destruct (Ascii.compare a b) eqn:Eab; try discriminate;
    destruct (Ascii.compare b c) eqn:Ebc; try discriminate.
  - apply Ascii.compare_eq_iff in Eab, Ebc. subst.
    rewrite ascii_compare_refl. apply IH.
  - apply Ascii.compare_eq_iff in Eab. subst. now rewrite Ebc.
  - apply Ascii.compare_eq_iff in Ebc. subst. now rewrite Eab.
  - intros _ _. unfold Ascii.compare in *.
    rewrite N.compare_lt_iff in *.
    assert (L : (N_of_ascii a < N_of_ascii c)%N) by lia.
    apply N.compare_lt_iff in L. now rewrite L.
Qed.

Lemma key_le_iff a b : key_le a b = true <-> entity_year_le a b.
Proof.
  unfold key_le, entity_year_le, String.ltb.
  destruct (String.compare (country (base a)) (country (base b))) eqn:E.
  - apply String.compare_eq_iff in E. rewrite Z.leb_le. split.
    + auto.
    + intros [H | [_ H]]; [discriminate | exact H].
  - split; auto.
  - split; [discriminate|]. intros [H | [H _]]; [discriminate|].
    rewrite H, string_compare_refl in E. discriminate.
Qed.

Lemma key_le_total a b : key_le a b = false -> key_le b a = true.
Proof.
  unfold key_le.
  rewrite (String.compare_antisym (country (base b)) (country (base a))).
  destruct (String.compare (country (base a)) (country (base b)));
    cbn [CompOpp]; try discriminate; try reflexivity.
  intros H. apply Z.leb_gt in H. apply Z.leb_le. lia.
Qed.

Lemma key_le_trans a b c :
  key_le a b = true -> key_le b c = true -> key_le a c = true.
Proof.
  unfold key_le.
  destruct (String.compare (country (base a)) (country (base b))) eqn:Eab;
    try discriminate;
    destruct (String.compare (country (base b)) (country (base c))) eqn:Ebc;
    try discriminate.
  - apply String.compare_eq_iff in Eab, Ebc. rewrite Eab, Ebc.
    rewrite string_compare_refl, !Z.leb_le. lia.
  - apply String.compare_eq_iff in Eab. now rewrite Eab, Ebc.
  - apply String.compare_eq_iff in Ebc. now rewrite <- Ebc, Eab.
  - now rewrite (string_compare_lt_trans _ _ _ Eab Ebc).
Qed.

Lemma insert_sorted_sorted x l :
  StronglySorted (fun a b => key_le a b = true) l ->
  StronglySorted (fun a b => key_le a b = true) (insert_sorted x l).
Proof.
  induction l as [|y l IH]; intros Hs; simpl.
  - repeat constructor.
  - inversion Hs as [|? ? Hl Hy]; subst.
    destruct (key_le x y) eqn:E.
    + constructor; [assumption|]. constructor; [assumption|].
      rewrite Forall_forall in *. intros z Hz.
      eapply key_le_trans; [exact E | now apply Hy].
    + constructor; [now apply IH|].
      rewrite Forall_forall in *. intros z Hz.
      apply (Permutation_in _ (insert_sorted_perm x l)) in Hz.
      destruct Hz as [<- | Hz]; [now apply key_le_total | now apply Hy].
Qed.

Lemma sort_values_sorted l :
  StronglySorted (fun a b => key_le a b = true) (sort_values l).
Proof.
  induction l as [|x l IH]; simpl; [constructor|].
  now apply insert_sorted_sorted.
Qed.

Lemma StronglySorted_nth {A : Type} (R : A -> A -> Prop) (l : list A) :
  StronglySorted R l ->
  forall i j a b, (i < j)%nat ->
    nth_error l i = Some a -> nth_error l j = Some b -> R a b.
Proof.
  induction 1 as [|x l Hs IH Hx]; intros i j a b Hij Ha Hb.
  - destruct i; discriminate.
  - destruct j as [|j]; [lia|]. simpl in Hb. destruct i as [|i]; simpl in Ha.
    + inversion Ha; subst. rewrite Forall_forall in Hx.
      apply Hx. eapply nth_error_In; eassumption.
    + apply (IH i j); auto. lia.
Qed.

Lemma string_ltb_asym s1 s2 :
  String.ltb s1 s2 = true -> String.ltb s2 s1 = true -> False.
Proof.
  unfold String.ltb. rewrite (String.compare_antisym s2 s1).
  destruct (String.compare s1 s2); simpl; discriminate.
Qed.

Lemma string_ltb_irrefl s : String.ltb s s = false.
Proof. unfold String.ltb. now rewrite string_compare_refl. Qed.

(** C9.  The table of the bump chart is sorted by (country, year); the
    rows of one country are therefore next to each other, in the order of
    their years. *)
Theorem df_rank_sorted_by_entity_year metric df :
  StronglySorted entity_year_le (df_rank metric df) /\
  (forall i j k a b c,
      (i <= j <= k)%nat ->
      nth_error (df_rank metric df) i = Some a ->
      nth_error (df_rank metric df) j = Some b ->
      nth_error (df_rank metric df) k = Some c ->
      country (base a) = country (base c) ->
      country (base b) = country (base a)).
Proof.
  assert (Hs : StronglySorted entity_year_le (df_rank metric df)).
  { unfold df_rank.
    generalize (sort_values_sorted (filter top10 (assign_rank metric df))).
    induction 1 as [|x l _ IH Hx]; constructor; [assumption|].
    eapply Forall_impl; [|exact Hx]. intros z. apply key_le_iff. }
  split; [exact Hs|].
  intros i j k a b c [Hij Hjk] Ha Hb Hc Hac.
  destruct (Nat.eq_dec i j) as [-> | Ni]; [congruence|].
  destruct (Nat.eq_dec j k) as [-> | Nj]; [congruence|].
  assert (Rab := StronglySorted_nth _ _ Hs i j a b ltac:(lia) Ha Hb).
  assert (Rbc := StronglySorted_nth _ _ Hs j k b c ltac:(lia) Hb Hc).
  unfold entity_year_le in Rab, Rbc. rewrite <- Hac in Rbc.
  destruct Rab as [Lab | [Eab _]]; [|congruence].
  destruct Rbc as [Lbc | [Ebc _]]; [|assumption].
  exfalso. eapply string_ltb_asym; eassumption.
Qed.

(** C9 on a table with two years of one country and one of another. *)
Lemma df_rank_sorted_by_entity_year_witness :
  let rA0 := {| country := "A"; year := 2020; ccii := Num 1; gwe := NaN; gwghg := NaN |} in
  let rB0 := {| country := "B"; year := 2020; ccii := Num 2; gwe := NaN; gwghg := NaN |} in
  let rA1 := {| country := "A"; year := 2021; ccii := Num 3; gwe := NaN; gwghg := NaN |} in
  df_rank m_ccii [rB0; rA1; rA0]
  = [ {| base := rA0; rank := Num 2 |}; {| base := rA1; rank := Num 1 |};
      {| base := rB0; rank := Num 1 |} ] /\
  country (base {| base := rA1; rank := Num 1 |})
  = country (base {| base := rA0; rank := Num 2 |}).
Proof.
  intros rA0 rB0 rA1. split; [reflexivity|].
  apply (proj2 (df_rank_sorted_by_entity_year m_ccii [rB0; rA1; rA0])
           0%nat 1%nat 1%nat
           {| base := rA0; rank := Num 2 |}
           {| base := rA1; rank := Num 1 |}
           {| base := rA1; rank := Num 1 |});
    try reflexivity.
  lia.
Defined.

(** C10.  A row whose metric is missing gets the rank NaN, and no row of
    the table of the bump chart has a missing metric: such rows are left
    out, without an error. *)
Theorem missing_metric_not_ranked metric df :
  (forall i r, nth_error df i = Some r -> col metric r = NaN ->
               nth_error (rank_column metric df) i = Some NaN) /\
  (forall rr, In rr (df_rank metric df) -> col metric (base rr) <> NaN) /\
  (forall r, In r df -> col metric r = NaN ->
             forall k, ~ In {| base := r; rank := k |} (df_rank metric df)).
Proof.
  assert (Hout : forall rr, In rr (df_rank metric df) ->
                            col metric (base rr) <> NaN).
  { intros rr Hrr. apply df_rank_In in Hrr. destruct Hrr as [Hin Htop].
    unfold assign_rank in Hin. apply in_map_iff in Hin.
    destruct Hin as [[i r] [<- _]]. simpl in *.
    unfold top10, rank_first in Htop. simpl in Htop.
    destruct (col metric r); [discriminate | discriminate]. }
  split; [|split].
  - intros i r Hi E. rewrite (nth_error_rank_column _ _ _ _ Hi).
    unfold rank_first. now rewrite E.
  - exact Hout.
  - intros r _ E k Hin. apply Hout in Hin. simpl in Hin. contradiction.
Qed.

(** C10 on a table whose first row has no CCII value. *)
Lemma missing_metric_not_ranked_witness :
  let rA := {| country := "A"; year := 2020; ccii := NaN; gwe := Num 1; gwghg := NaN |} in
  let rB := {| country := "B"; year := 2020; ccii := Num 7; gwe := Num 2; gwghg := NaN |} in
  nth_error (rank_column m_ccii [rA; rB]) 0 = Some NaN /\
  df_rank m_ccii [rA; rB] = [ {| base := rB; rank := Num 1 |} ].
Proof.
  intros rA rB. split; [|reflexivity].
  apply (proj1 (missing_metric_not_ranked m_ccii [rA; rB]) 0%nat rA);
    reflexivity.
Defined.

End RankingFacts.

(* ------------------------------------------------------------------ *)
(** ** The quadrant layout *)

Module QuadrantFacts.

Import Quadrant.







(** The script's statements always run to the end. *)
Lemma compute_quadrant_layout_returns df_ind y_metric :
  let xs := map ccii df_ind in
  let ys := map (col y_metric) df_ind in
  compute_quadrant_layout df_ind y_metric
  = Returns (fun yr =>
      {| frame_year := yr;
         points := frame_points df_ind y_metric yr;
         x_ref := Num 0;
         y_ref := nanmean ys;
         anchors :=
           [ {| ann_x := fmul (nanmax xs) c06; ann_y := fmul (nanmax ys) c09;
                ann_text := "High CCII<br>High Greenwashing<br>(Symbolic Commitment)" |};
             {| ann_x := fmul (nanmin xs) c06; ann_y := fmul (nanmax ys) c09;
                ann_text := "Low CCII<br>High Greenwashing<br>(Formalist / Passive)" |};
             {| ann_x := fmul (nanmin xs) c06; ann_y := fmul (nanmin ys) c09;
                ann_text := "Low CCII<br>Low Greenwashing<br>(Low-risk Industry)" |};
             {| ann_x := fmul (nanmax xs) c06; ann_y := fmul (nanmin ys) c09;
                ann_text := "High CCII<br>Low Greenwashing<br>(Substantive Commitment)" |} ]
      |}).
Proof. reflexivity. Qed.


(** C4.  The reference lines and the anchors are computed once, from the
    whole table: any two per-year frames show the same x_ref, y_ref and
    anchors, which are those of the figure's layout. *)
Theorem reference_lines_shared_by_frames df_ind y_metric :
  (exists F, compute_quadrant_layout df_ind y_metric = Returns F) /\
  (forall F, compute_quadrant_layout df_ind y_metric = Returns F ->
     forall y1 y2,
       x_ref (F y1) = x_ref (F y2) /\
       y_ref (F y1) = y_ref (F y2) /\
       anchors (F y1) = anchors (F y2) /\
       forall lay, quadrant_layout df_ind y_metric = Returns lay ->
         x_ref (F y1) = x_center lay /\
         y_ref (F y1) = y_center lay /\
         anchors (F y1) = annotations lay).
Proof.
  split.
  - eexists. apply compute_quadrant_layout_returns.
  - intros F HF y1 y2.
    unfold compute_quadrant_layout in HF.
    destruct (quadrant_layout df_ind y_metric) as [lay0 | e] eqn:E;
      [|discriminate].
    cbn [bind] in HF. inversion HF; subst F.
    cbn [x_ref y_ref anchors].
    split; [reflexivity|]. split; [reflexivity|]. split; [reflexivity|].
    intros lay Hlay. inversion Hlay; subst lay. auto.
Qed.

(** C4 on the frames of 2020 and 2021 of the example table, whose
    markers differ. *)
Lemma reference_lines_shared_by_frames_witness :
  exists F,
    compute_quadrant_layout example_table y_gwe = Returns F /\
    points (F 2020) <> points (F 2021) /\
    x_ref (F 2020) = x_ref (F 2021) /\
    y_ref (F 2020) = y_ref (F 2021) /\
    anchors (F 2020) = anchors (F 2021).
Proof.
  destruct (proj1 (reference_lines_shared_by_frames example_table y_gwe))
    as [F HF].
  exists F. split; [exact HF|].
  destruct (proj2 (reference_lines_shared_by_frames example_table y_gwe)
              F HF 2020 2021) as [H1 [H2 [H3 _]]].
  repeat split; try assumption.
  rewrite compute_quadrant_layout_returns in HF. inversion HF. discriminate.
Defined.

(** C6 as stated fails: on the empty column the three reductions return
    NaN; none raises [InsufficientDataError], and the layout of the empty
    table is built with NaN in it. *)
Lemma empty_column_counterexample :
  series_mean [] = Returns NaN /\
  series_min [] = Returns NaN /\
  series_max [] = Returns NaN /\
  series_mean [] <> Raises InsufficientDataError /\
  series_min [] <> Raises InsufficientDataError /\
  series_max [] <> Raises InsufficientDataError /\
  exists F, compute_quadrant_layout [] y_gwe = Returns F /\
            y_ref (F 2020) = NaN.
Proof.
  repeat split; try reflexivity; try discriminate.
  eexists. split; reflexivity.
Qed.

(** C6, amended.  On a column without a present value (the empty column
    among them) mean, min and max return NaN and raise nothing; the NaN
    goes into the layout: the horizontal reference line and the y
    coordinate of every anchor are NaN. *)
Theorem empty_column_yields_nan :
  (forall s, dropna s = [] ->
     series_mean s = Returns NaN /\
     series_min s = Returns NaN /\
     series_max s = Returns NaN) /\
  (forall df_ind y_metric,
     dropna (map (col y_metric) df_ind) = [] ->
     exists F,
       compute_quadrant_layout df_ind y_metric = Returns F /\
       forall yr,
         y_ref (F yr) = NaN /\
         Forall (fun a => ann_y a = NaN) (anchors (F yr))).
Proof.
  split.
  - intros s E. unfold series_mean, series_min, series_max,
      nanmean, nanmin, nanmax. rewrite E. auto.
  - intros df_ind y_metric E. eexists.
    split; [apply compute_quadrant_layout_returns|].
    intros yr. cbn [y_ref anchors]. unfold nanmean, nanmin, nanmax.
    rewrite E. split; [reflexivity|]. repeat constructor.
Qed.

(** C6, amended, on the empty column. *)
Lemma empty_column_yields_nan_witness :
  series_mean [] = Returns NaN /\
  series_min [] = Returns NaN /\
  series_max [] = Returns NaN.
Proof.
  apply (proj1 empty_column_yields_nan []). reflexivity.
Defined.

End QuadrantFacts.

(* ------------------------------------------------------------------ *)
(** ** The loaders *)

Module LoaderFacts.

Import Loader.

Section World.

Variable parse_csv : string -> outcome DataFrame.
Variable py_int : string -> option Z.

Lemma int_cell_raises c e :
  int_cell py_int c = Raises e -> e = ValueError \/ e = OverflowError.
Proof.
  unfold int_cell, to_int64.
  destruct (py_int_cell py_int c) as [z|].
  - destruct (in_int64 z); [discriminate|]. intros [= <-]. now right.
  - intros [= <-]. now left.
Qed.

Lemma int_cell_returns c z :
  py_int_cell py_int c = Some z -> in_int64 z = true ->
  int_cell py_int c = Returns z.
Proof. intros H1 H2. unfold int_cell, to_int64. now rewrite H1, H2. Qed.

(** The cast of an object column fails at its first cell that fails. *)
Lemma int_cells_first pre c post e :
  (forall c', In c' pre ->
     exists z, py_int_cell py_int c' = Some z /\ in_int64 z = true) ->
  int_cell py_int c = Raises e ->
  int_cells py_int (pre ++ c :: post) = Raises e.
Proof.
  intros Hpre Hc. induction pre as [|c0 pre IH]; simpl.
  - now rewrite Hc.
  - destruct (Hpre c0 (or_introl eq_refl)) as [z [H1 H2]].
    rewrite (int_cell_returns _ _ H1 H2). cbn [bind].
    rewrite IH; [reflexivity|]. intros c' Hc'. apply Hpre. now right.
Qed.

(** One cell that fails makes the cast of the whole column fail. *)
Lemma int_cells_rejects cells c e :
  In c cells -> int_cell py_int c = Raises e ->
  exists e', int_cells py_int cells = Raises e' /\
             (e' = ValueError \/ e' = OverflowError).
Proof.
  intros Hin Hc. induction cells as [|c0 cells IH]; [contradiction|].
  simpl. destruct (int_cell py_int c0) as [z | e0] eqn:E.
  - destruct Hin as [-> | Hin]; [congruence|].
    destruct (IH Hin) as [e' [He' Hor]]. exists e'. cbn [bind].
    now rewrite He'.
  - exists e0. split; [reflexivity|]. eapply int_cell_raises; eassumption.
Qed.

End World.

Lemma forallb_notna_NaN xs : In NaN xs -> forallb notna xs = false.
Proof.
  induction xs as [|x xs IH]; [contradiction|].
  intros [-> | Hin]; simpl; [reflexivity|].
  rewrite (IH Hin). apply andb_false_r.
Qed.

(** C5 as stated fails: without the file, and with a year that is not a
    number, the loader fails with [FileNotFoundError] and [ValueError];
    it never fails with [DataLoadError]. *)
Lemma load_data_error_counterexample :
  load_data example_parser decimal_int no_files = Raises FileNotFoundError /\
  load_data example_parser decimal_int no_files <> Raises DataLoadError /\
  load_data example_parser decimal_int bad_year_files = Raises ValueError /\
  load_data example_parser decimal_int bad_year_files <> Raises DataLoadError.
Proof.
  repeat split; try reflexivity; vm_compute; discriminate.
Qed.

(** C5, amended.  The loader fails with the exception of the library
    call that fails: [FileNotFoundError] when the file is missing; the
    parser's own exception when the file cannot be parsed; and, when the
    year column is an object column with a cell that cannot be made an
    [int64], the exception of the first such cell: [ValueError] for a
    text that [int] rejects or a missing value, [OverflowError] for a
    whole number outside the range of [int64].  A float year column with
    a missing value gives [ValueError].  Whenever the loader fails it
    returns no table. *)
Theorem load_failures parse_csv py_int path fs :
  (fs path = None ->
   load parse_csv py_int path fs = Raises FileNotFoundError) /\
  (forall text e,
      fs path = Some text -> parse_csv text = Raises e ->
      load parse_csv py_int path fs = Raises e) /\
  (forall text df pre c post,
      fs path = Some text -> parse_csv text = Returns df ->
      getitem df "year" = Returns (Object (pre ++ c :: post)) ->
      (forall c', In c' pre ->
         exists z, py_int_cell py_int c' = Some z /\ in_int64 z = true) ->
      (py_int_cell py_int c = None ->
       load parse_csv py_int path fs = Raises ValueError) /\
      (forall z, py_int_cell py_int c = Some z -> in_int64 z = false ->
       load parse_csv py_int path fs = Raises OverflowError)) /\
  (forall text df cells c,
      fs path = Some text -> parse_csv text = Returns df ->
      getitem df "year" = Returns (Object cells) ->
      In c cells ->
      (py_int_cell py_int c = None \/
       exists z, py_int_cell py_int c = Some z /\ in_int64 z = false) ->
      exists e, load parse_csv py_int path fs = Raises e /\
                (e = ValueError \/ e = OverflowError)) /\
  (forall text df xs,
      fs path = Some text -> parse_csv text = Returns df ->
      getitem df "year" = Returns (Float64 xs) -> In NaN xs ->
      load parse_csv py_int path fs = Raises ValueError) /\
  (forall e, load parse_csv py_int path fs = Raises e ->
             forall df, load parse_csv py_int path fs <> Returns df).
Proof.
  unfold load, read_csv. split; [|split; [|split; [|split; [|split]]]].
  - intros ->. reflexivity.
  - intros text e -> ->. reflexivity.
  - intros text df pre c post -> -> Hy Hpre. cbn [bind]. rewrite Hy.
    cbn [bind astype_int]. split.
    + intros Hc.
      rewrite (int_cells_first py_int pre c post ValueError Hpre);
        [reflexivity|]. unfold int_cell. now rewrite Hc.
    + intros z Hc Hz.
      rewrite (int_cells_first py_int pre c post OverflowError Hpre);
        [reflexivity|]. unfold int_cell, to_int64. now rewrite Hc, Hz.
  - intros text df cells c -> -> Hy Hin Hc. cbn [bind]. rewrite Hy.
    cbn [bind astype_int].
    assert (He : exists e, int_cell py_int c = Raises e).
    { unfold int_cell, to_int64. destruct Hc as [Hc | [z [Hc Hz]]].
      - rewrite Hc. eauto.
      - rewrite Hc, Hz. eauto. }
    destruct He as [e He].
    destruct (int_cells_rejects py_int cells c e Hin He) as [e' [He' Hor]].
    exists e'. now rewrite He'.
  - intros text df xs -> -> Hy Hin. cbn [bind]. rewrite Hy.
    cbn [bind astype_int]. now rewrite (forallb_notna_NaN _ Hin).
  - intros e -> df. discriminate.
Qed.

(** C5, amended, on the file whose second year is the text "abc", and
    on a year column that starts with a number beyond [int64]. *)
Lemma load_failures_witness :
  load example_parser decimal_int "countrylevel.csv" bad_year_files
  = Raises ValueError /\
  load (fun _ => Returns
          [("year"%string,
            Object [PyStr "99999999999999999999"; PyStr "abc"])])
       decimal_int "countrylevel.csv" good_files
  = Raises OverflowError.
Proof.
  split.
  - destruct (load_failures example_parser decimal_int
                "countrylevel.csv" bad_year_files)
      as [_ [_ [H _]]].
    apply (H bad_year_csv bad_year_frame [PyStr "2020"] (PyStr "abc") []);
      try reflexivity.
    intros c' [<- | []]. exists 2020. split; reflexivity.
  - destruct (load_failures
                (fun _ => Returns
                   [("year"%string,
                     Object [PyStr "99999999999999999999"; PyStr "abc"])])
                decimal_int "countrylevel.csv" good_files)
      as [_ [_ [H _]]].
    apply (H good_csv
             [("year"%string,
               Object [PyStr "99999999999999999999"; PyStr "abc"])]
             [] (PyStr "99999999999999999999") [PyStr "abc"]
             eq_refl eq_refl eq_refl)
      with (z := 99999999999999999999); try reflexivity.
    intros c' [].
Defined.

Lemma cache_data_hit slot store body fs fs' c c' df :
  (forall d c0, slot (store d c0) = Some d) ->
  cache_data slot store body fs c = (Returns df, c') ->
  cache_data slot store body fs' c' = (Returns df, c').
Proof.
  intros Hstore. unfold cache_data.
  destruct (slot c) as [d |] eqn:E.
  - intros [= <- <-]. now rewrite E.
  - destruct (body fs) as [d | e]; [|discriminate].
    intros [= <- <-]. now rewrite Hstore.
Qed.

(** C8.  Once a loader has returned a table, every later call returns
    the same table from the store, whatever the files then hold (the
    body is not run again); the call of the other loader in between does
    not change that; and on an empty store the cached loader returns
    what its body returns. *)
Theorem memoized_load_same_content parse_csv py_int :
  (forall fs fs' c c' df,
      cached_load_data parse_csv py_int fs c = (Returns df, c') ->
      cached_load_data parse_csv py_int fs' c' = (Returns df, c')) /\
  (forall fs fs' c c' df,
      cached_load_industry_data parse_csv py_int fs c = (Returns df, c') ->
      cached_load_industry_data parse_csv py_int fs' c' = (Returns df, c')) /\
  (forall fs fs' fs'' c c' c'' df o,
      cached_load_data parse_csv py_int fs c = (Returns df, c') ->
      cached_load_industry_data parse_csv py_int fs' c' = (o, c'') ->
      cached_load_data parse_csv py_int fs'' c'' = (Returns df, c'')) /\
  (forall fs,
      fst (cached_load_data parse_csv py_int fs empty_cache)
      = load_data parse_csv py_int fs /\
      fst (cached_load_industry_data parse_csv py_int fs empty_cache)
      = load_industry_data parse_csv py_int fs).
Proof.
  split; [|split; [|split]].
  - intros fs fs' c c' df. apply cache_data_hit. reflexivity.
  - intros fs fs' c c' df. apply cache_data_hit. reflexivity.
  - intros fs fs' fs'' c c' c'' df o H1 H2.
    assert (Hm : memo_load_data c' = Some df).
    { revert H1. unfold cached_load_data, cache_data.
      destruct (memo_load_data c) as [d |] eqn:E.
      - intros [= <- <-]. exact E.
      - destruct (load_data parse_csv py_int fs); [|discriminate].
        intros [= <- <-]. reflexivity. }
    assert (Hm' : memo_load_data c'' = Some df).
    { revert H2. unfold cached_load_industry_data, cache_data.
      destruct (memo_load_industry_data c').
      - intros [= _ <-]. exact Hm.
      - destruct (load_industry_data parse_csv py_int fs').
        + intros [= _ <-]. exact Hm.
        + intros [= _ <-]. exact Hm. }
    unfold cached_load_data, cache_data. now rewrite Hm'.
  - intros fs. unfold cached_load_data, cached_load_industry_data, cache_data.
    simpl. split.
    + now destruct (load_data parse_csv py_int fs).
    + now destruct (load_industry_data parse_csv py_int fs).
Qed.

(** C8 on the example file: loaded once, then asked for again after the
    file has gone. *)
Lemma memoized_load_same_content_witness :
  exists df c,
    cached_load_data example_parser decimal_int good_files empty_cache
    = (Returns df, c) /\
    cached_load_data example_parser decimal_int no_files c = (Returns df, c) /\
    load_data example_parser decimal_int no_files = Raises FileNotFoundError.
Proof.
  eexists. eexists. split; [reflexivity|]. split; [|reflexivity].
  apply (proj1 (memoized_load_same_content example_parser decimal_int)
           good_files no_files empty_cache).
  reflexivity.
Defined.

End LoaderFacts.

(* ------------------------------------------------------------------ *)
(** ** More on the ranking *)

Module RankingMore.

Import Ranking RankingFacts.

(** X1.  Within one year the ranks follow the values downwards: a
    strictly greater value has a strictly lower rank number, and a lower
    rank number never goes with a smaller value. *)
Theorem rank_descending_by_value metric df i j ri rj a b :
  nth_error df i = Some ri -> nth_error df j = Some rj ->
  year ri = year rj ->
  col metric ri = Num a -> col metric rj = Num b ->
  exists p q,
    nth_error (rank_column metric df) i = Some (of_nat p) /\
    nth_error (rank_column metric df) j = Some (of_nat q) /\
    ((b < a)%Q -> (p < q)%nat) /\
    ((p < q)%nat -> (b <= a)%Q).
Proof.
  intros Hi Hj Hy Ea Eb.
  exists (S (place metric df (i, ri))), (S (place metric df (j, rj))).
  rewrite (nth_error_rank_column _ _ _ _ Hi), (nth_error_rank_column _ _ _ _ Hj).
  rewrite (rank_first_num _ _ _ _ _ Ea), (rank_first_num _ _ _ _ _ Eb).
  split; [reflexivity|]. split; [reflexivity|]. split.
  - intros Hlt. apply -> Nat.succ_lt_mono. apply place_lt.
    + now apply In_enumerate.
    + simpl. apply outranks_iff. split; [assumption|].
      exists a, b. auto.
  - intros Hpq. apply Nat.succ_lt_mono in Hpq.
    destruct (Nat.eq_dec i j) as [-> | Hij].
    + rewrite Hi in Hj. inversion Hj; subst rj. rewrite Ea in Eb.
      inversion Eb. apply Qle_refl.
    + destruct (outranks_total metric i ri j rj a b Hy Ea Eb Hij) as [H | H].
      * assert (L := place_lt metric df (j, rj) (i, ri)
                       (proj2 (In_enumerate df j rj) Hj) H). lia.
      * apply outranks_iff in H.
        destruct H as [_ [v' [v [E' [E H]]]]].
        rewrite Ea in E'. rewrite Eb in E. inversion E'. inversion E.
        subst v' v. destruct H as [H | [H _]]; lra.
Qed.

(** X1 on a table with two countries in 2020. *)
Lemma rank_descending_by_value_witness :
  exists p q,
    nth_error (rank_column m_gwe
      [ {| country := "A"; year := 2020; ccii := NaN; gwe := Num 3; gwghg := NaN |};
        {| country := "B"; year := 2020; ccii := NaN; gwe := Num 1; gwghg := NaN |} ])
      0 = Some (of_nat p) /\
    nth_error (rank_column m_gwe
      [ {| country := "A"; year := 2020; ccii := NaN; gwe := Num 3; gwghg := NaN |};
        {| country := "B"; year := 2020; ccii := NaN; gwe := Num 1; gwghg := NaN |} ])
      1 = Some (of_nat q) /\
    ((1 < 3)%Q -> (p < q)%nat) /\
    ((p < q)%nat -> (1 <= 3)%Q).
Proof.
  apply (rank_descending_by_value m_gwe _ 0%nat 1%nat
           {| country := "A"; year := 2020; ccii := NaN; gwe := Num 3; gwghg := NaN |}
           {| country := "B"; year := 2020; ccii := NaN; gwe := Num 1; gwghg := NaN |}
           3%Q 1%Q);
    reflexivity.
Defined.

Lemma In_assign_rank metric df rr :
  In rr (assign_rank metric df) <->
  exists i, nth_error df i = Some (base rr) /\
            rank rr = rank_first metric df i (base rr).
Proof.
  unfold assign_rank. rewrite in_map_iff. split.
  - intros [[i r] [<- Hin]]. exists i. simpl.
    split; [now apply In_enumerate | reflexivity].
  - intros [i [Hi Hr]]. exists (i, base rr). split.
    + destruct rr as [r k]. simpl in *. now rewrite Hr.
    + now apply In_enumerate.
Qed.

(** X2.  The row shown with rank 1 holds the greatest value of its
    year. *)
Theorem rank_one_is_maximum metric df rr :
  In rr (df_rank metric df) -> rank rr = Num 1 ->
  exists w, col metric (base rr) = Num w /\
    forall r v, In r df -> year r = year (base rr) ->
                col metric r = Num v -> (v <= w)%Q.
Proof.
  intros Hin H1. apply df_rank_In in Hin. destruct Hin as [Hin _].
  apply In_assign_rank in Hin. destruct Hin as [i [Hi Hr]].
  rewrite H1 in Hr. unfold rank_first in Hr.
  destruct (col metric (base rr)) as [|w] eqn:Ew; [discriminate|].
  exists w. split; [reflexivity|].
  assert (Hp : place metric df (i, base rr) = 0%nat).
  { change (Num 1) with (of_nat 1) in Hr. apply of_nat_inj in Hr. lia. }
  intros r v Hr' Hy Ev.
  apply In_nth_error in Hr'. destruct Hr' as [j Hj].
  destruct (Nat.eq_dec i j) as [-> | Hij].
  - rewrite Hi in Hj. inversion Hj; subst r. rewrite Ew in Ev.
    inversion Ev. apply Qle_refl.
  - destruct (outranks_total metric i (base rr) j r w v) as [H | H];
      auto.
    + exfalso. unfold place in Hp. simpl in Hp.
      assert (Hf : In (j, r) (filter (outranks metric i (base rr))
                                     (enumerate df))).
      { apply filter_In. split; [now apply In_enumerate | exact H]. }
      destruct (filter (outranks metric i (base rr)) (enumerate df));
        [contradiction | discriminate].
    + apply outranks_iff in H.
      destruct H as [_ [v' [v0 [E' [E H]]]]].
      rewrite Ew in E'. rewrite Ev in E. inversion E'. inversion E.
      subst v' v0. destruct H as [H | [H _]]; lra.
Qed.

(** X2 on a table of two rows, for its first-ranked row. *)
Lemma rank_one_is_maximum_witness :
  let rA := {| country := "A"; year := 2020; ccii := Num 2; gwe := NaN; gwghg := NaN |} in
  let rB := {| country := "B"; year := 2020; ccii := Num 7; gwe := NaN; gwghg := NaN |} in
  exists w, col m_ccii rB = Num w /\
    forall r v, In r [rA; rB] -> year r = 2020 ->
                col m_ccii r = Num v -> (v <= w)%Q.
Proof.
  intros rA rB.
  apply (rank_one_is_maximum m_ccii [rA; rB] {| base := rB; rank := Num 1 |}).
  - simpl. tauto.
  - reflexivity.
Defined.

Lemma filter_split_perm {A : Type} (f : A -> bool) (l : list A) :
  Permutation (filter f l ++ filter (fun x => negb (f x)) l) l.
Proof.
  induction l as [|x l IH]; simpl; [constructor|].
  destruct (f x); simpl.
  - now constructor.
  - symmetry. apply Permutation_cons_app. now symmetry.
Qed.

Lemma map_base_assign_rank metric df : map base (assign_rank metric df) = df.
Proof.
  unfold assign_rank. rewrite map_map. simpl. apply map_snd_enumerate.
Qed.

(** X3.  The table of the bump chart is made of rows of the input, each
    taken at most once and shown with the rank it has in the input: there
    are rows [dropped] that complete it to the input table. *)
Theorem df_rank_rows_from_input metric df :
  (exists dropped,
     Permutation (map base (df_rank metric df) ++ dropped) df) /\
  (forall rr, In rr (df_rank metric df) ->
     exists i, nth_error df i = Some (base rr) /\
               nth_error (rank_column metric df) i = Some (rank rr)).
Proof.
  split.
  - exists (map base (filter (fun rr => negb (top10 rr))
                             (assign_rank metric df))).
    rewrite <- map_app.
    transitivity (map base (assign_rank metric df));
      [|now rewrite map_base_assign_rank].
    apply Permutation_map.
    transitivity (filter top10 (assign_rank metric df)
                  ++ filter (fun rr => negb (top10 rr))
                            (assign_rank metric df));
      [|apply filter_split_perm].
    apply Permutation_app_tail. unfold df_rank. apply sort_values_perm.
  - intros rr Hin. apply df_rank_In in Hin. destruct Hin as [Hin _].
    apply In_assign_rank in Hin. destruct Hin as [i [Hi Hr]].
    exists i. split; [exact Hi|].
    now rewrite (nth_error_rank_column _ _ _ _ Hi), Hr.
Qed.

(** X3 on a table whose only row is ranked first. *)
Lemma df_rank_rows_from_input_witness :
  let rA := {| country := "A"; year := 2020; ccii := Num 2; gwe := NaN; gwghg := NaN |} in
  exists i, nth_error [rA] i = Some rA /\
            nth_error (rank_column m_ccii [rA]) i = Some (Num 1).
Proof.
  intros rA.
  apply (proj2 (df_rank_rows_from_input m_ccii [rA])
           {| base := rA; rank := Num 1 |}).
  simpl. tauto.
Defined.

Lemma rank_first_group metric df y e :
  in_group metric y e = true ->
  rank_first metric df (fst e) (snd e) = of_nat (S (place metric df e)).
Proof.
  destruct e as [i r]. unfold in_group. simpl. intros Hg.
  apply andb_true_iff in Hg. destruct Hg as [_ Hg].
  destruct (col metric r) eqn:E; [discriminate|].
  eapply rank_first_num; eassumption.
Qed.

Lemma notna_rank_first metric df i r :
  notna (rank_first metric df i r) = notna (col metric r).
Proof. unfold rank_first. now destruct (col metric r). Qed.

(** X4.  Before the cut at 10, the ranks that are not NaN in one year
    are 1, 2, ..., n, each once, n being the number of rows of the year
    with a present metric. *)
Theorem rank_column_of_year metric df y :
  Permutation
    (map rank (filter (fun rr => (year (base rr) =? y) && notna (rank rr))
                      (assign_rank metric df)))
    (map of_nat (seq 1 (group_count metric y df))).
Proof.
  unfold assign_rank. rewrite filter_map_comm, map_map. simpl.
  transitivity
    (map of_nat (map (fun e => S (place metric df e))
                     (filter (in_group metric y) (enumerate df)))).
  - rewrite map_map.
    replace (filter (fun x => (year (snd x) =? y)
                              && notna (rank_first metric df (fst x) (snd x)))
                    (enumerate df))
      with (filter (in_group metric y) (enumerate df)).
    + apply Permutation_refl'. apply map_ext_in. intros e He.
      apply filter_In in He. now apply rank_first_group with (y := y).
    + apply filter_ext. intros [i r]. unfold in_group. simpl.
      now rewrite notna_rank_first.
  - apply Permutation_map, places_of_group.
Qed.

(** X5.  The sort of line 227 is stable: the rows of one country and one
    year stand in the table of the bump chart in the order of the input
    table. *)
Theorem sort_values_stable metric df c y :
  let same_key rr :=
    String.eqb (country (base rr)) c && (year (base rr) =? y) in
  filter same_key (df_rank metric df)
  = filter same_key (filter top10 (assign_rank metric df)).
Proof.
  intros same_key. unfold df_rank.
  generalize (filter top10 (assign_rank metric df)). intros l.
  assert (Hins : forall x l0,
            filter same_key (insert_sorted x l0)
            = if same_key x then x :: filter same_key l0
              else filter same_key l0).
  { intros x l0. induction l0 as [|z l0 IH]; simpl.
    - now destruct (same_key x).
    - destruct (key_le x z) eqn:E; simpl.
      + now destruct (same_key x).
      + rewrite IH. destruct (same_key x) eqn:Ex; [|reflexivity].
        destruct (same_key z) eqn:Ez; [|reflexivity].
        exfalso. unfold same_key in Ex, Ez.
        apply andb_true_iff in Ex. destruct Ex as [Cx Yx].
        apply andb_true_iff in Ez. destruct Ez as [Cz Yz].
        apply String.eqb_eq in Cx, Cz. apply Z.eqb_eq in Yx, Yz.
        unfold key_le in E. rewrite Cx, Cz, string_compare_refl in E.
        apply Z.leb_gt in E. lia. }
  induction l as [|x l IH]; simpl; [reflexivity|].
  rewrite Hins, IH. reflexivity.
Qed.

(** X7.  A year with at least one present metric has its first-ranked
    row in the table of the bump chart. *)
Theorem year_has_rank_one metric df y :
  (0 < group_count metric y df)%nat ->
  exists rr, In rr (df_rank metric df) /\
             year (base rr) = y /\ rank rr = Num 1.
Proof.
  intros Hn.
  assert (H1 : In (of_nat 1)
                  (ranks_of_year y (filter top10 (assign_rank metric df)))).
  { rewrite kept_ranks_of_year. apply in_map.
    apply (Permutation_in (l := seq 1 (Nat.min (group_count metric y df) 10))).
    - rewrite <- filter_seq_le. symmetry.
      apply Permutation_filter, places_of_group.
    - apply in_seq. lia. }
  unfold ranks_of_year in H1. apply in_map_iff in H1.
  destruct H1 as [rr [Hr Hin]]. apply filter_In in Hin.
  destruct Hin as [Hin Hy]. apply filter_In in Hin.
  exists rr. split; [now apply df_rank_In|].
  split; [now apply Z.eqb_eq | exact Hr].
Qed.

(** X7 on a table with one row in 2020. *)
Lemma year_has_rank_one_witness :
  let rA := {| country := "A"; year := 2020; ccii := Num 2; gwe := NaN; gwghg := NaN |} in
  exists rr, In rr (df_rank m_ccii [rA]) /\
             year (base rr) = 2020 /\ rank rr = Num 1.
Proof.
  intros rA. apply (year_has_rank_one m_ccii [rA] 2020).
  vm_compute. reflexivity.
Defined.

(** The rank in terms of the rows before and after a row: the earlier
    rows of its year with a value at least as great, and the later ones
    with a strictly greater value, come before it. *)
Lemma outranks_index metric i r j i' j' r' :
  (j <? i)%nat = (j' <? i')%nat ->
  outranks metric i r (j, r') = outranks metric i' r (j', r').
Proof. unfold outranks. now intros ->. Qed.

Lemma filter_combine_seq_length {A : Type} (f : nat * A -> bool)
    (g : A -> bool) (l : list A) (s : nat) :
  (forall j x, (s <= j < s + length l)%nat -> f (j, x) = g x) ->
  length (filter f (combine (seq s (length l)) l)) = length (filter g l).
Proof.
  revert s. induction l as [|x l IH]; intros s H; simpl; [reflexivity|].
  rewrite (H s x) by (simpl; lia).
  assert (IH' : length (filter f (combine (seq (S s) (length l)) l))
                = length (filter g l)).
  { apply IH. intros j y Hj. apply H. simpl. lia. }
  destruct (g x); simpl; now rewrite IH'.
Qed.

Lemma combine_seq_app {A : Type} (l1 l2 : list A) (s : nat) :
  combine (seq s (length (l1 ++ l2))) (l1 ++ l2)
  = combine (seq s (length l1)) l1
    ++ combine (seq (s + length l1) (length l2)) l2.
Proof.
  revert s. induction l1 as [|x l1 IH]; intros s; simpl.
  - now rewrite Nat.add_0_r.
  - rewrite IH. now rewrite Nat.add_succ_r.
Qed.

Lemma place_split metric l1 r l2 :
  place metric (l1 ++ r :: l2) (length l1, r)
  = (length (filter (fun r' => outranks metric 1 r (0%nat, r')) l1)
     + length (filter (fun r' => outranks metric 0 r (1%nat, r')) l2))%nat.
Proof.
  unfold place, enumerate. cbn [fst snd].
  rewrite combine_seq_app, filter_app, length_app. f_equal.
  - apply filter_combine_seq_length. intros j x Hj.
    apply outranks_index.
    destruct (Nat.ltb_spec j (length l1)); [reflexivity | lia].
  - cbn [length seq combine filter Nat.add].
    rewrite outranks_irrefl.
    apply filter_combine_seq_length. intros j x Hj.
    apply outranks_index.
    destruct (Nat.ltb_spec j (length l1)); [lia | reflexivity].
Qed.

Lemma outranks_same_year metric i r j r' :
  outranks metric i r (j, r') = true -> (year r' =? year r) = true.
Proof. unfold outranks. intros H. now apply andb_true_iff in H. Qed.

Lemma rank_first_in_group metric l1 r l2 :
  let p := fun r' => year r' =? year r in
  rank_first metric (l1 ++ r :: l2) (length l1) r
  = rank_first metric (filter p (l1 ++ r :: l2)) (length (filter p l1)) r.
Proof.
  intros p. unfold rank_first.
  destruct (col metric r); [reflexivity|]. do 2 f_equal.
  assert (Hr : p r = true) by apply Z.eqb_refl.
  rewrite filter_app. cbn [filter]. rewrite Hr.
  rewrite !place_split, !filter_filter.
  f_equal; f_equal; apply filter_ext; intros r';
    match goal with
    | |- ?o = _ => destruct o eqn:E
    end;
    try (now rewrite andb_false_r);
    apply outranks_same_year in E; unfold p; now rewrite E.
Qed.

(** X6.  The rank of a row depends on the rows of its own year only: the
    ranks of the rows of a year, computed on the whole table, are those
    computed on the table of that year alone. *)
Theorem rank_within_year metric df y :
  map rank (filter (fun rr => year (base rr) =? y) (assign_rank metric df))
  = rank_column metric (filter (fun r => year r =? y) df).
Proof.
  set (p := fun r => year r =? y).
  unfold rank_column, assign_rank, enumerate.
  rewrite filter_map_comm, !map_map. cbn [base rank].
  assert (H : forall suf pre, df = pre ++ suf ->
    map (fun e => rank_first metric df (fst e) (snd e))
        (filter (fun e => p (snd e))
                (combine (seq (length pre) (length suf)) suf))
    = map (fun e => rank_first metric (filter p df) (fst e) (snd e))
          (combine (seq (length (filter p pre)) (length (filter p suf)))
                   (filter p suf))).
  { induction suf as [|x suf IH]; intros pre Hdf; [reflexivity|].
    assert (IH' := IH (pre ++ [x])).
    rewrite <- app_assoc in IH'. specialize (IH' Hdf).
    rewrite filter_app, !length_app in IH'. cbn [filter length] in IH'.
    cbn [length seq combine filter snd].
    destruct (p x) eqn:Px.
    - cbn [length seq combine map fst snd]. f_equal.
      + rewrite Hdf. unfold p in Px |- *. apply Z.eqb_eq in Px.
        rewrite <- Px. apply rank_first_in_group.
      + rewrite Nat.add_1_r in IH'. cbn [length] in IH'.
        rewrite Nat.add_1_r in IH'. exact IH'.
    - rewrite Nat.add_1_r in IH'. cbn [length] in IH'.
      rewrite Nat.add_0_r in IH'. exact IH'. }
  apply (H df []). reflexivity.
Qed.

End RankingMore.

(* ------------------------------------------------------------------ *)
(** ** Years: the selector of the map and the frames of the scatter plot *)

Module YearFacts.

Lemma In_unique ys y : In y (unique ys) <-> In y ys.
Proof.
  induction ys as [|x ys IH]; simpl; [tauto|].
  rewrite filter_In, IH, negb_true_iff, Z.eqb_neq.
  destruct (Z.eq_dec x y); [tauto|]. split.
  - intros [H | [H _]]; auto.
  - intros [H | H]; auto.
Qed.

Lemma NoDup_unique ys : NoDup (unique ys).
Proof.
  induction ys as [|x ys IH]; simpl; constructor.
  - rewrite filter_In, negb_true_iff, Z.eqb_neq. tauto.
  - now apply NoDup_filter.
Qed.

Lemma insert_year_perm y l : Permutation (insert_year y l) (y :: l).
Proof.
  induction l as [|z l IH]; simpl; [reflexivity|].
  destruct (y <=? z); [reflexivity|].
  rewrite IH. apply perm_swap.
Qed.

Lemma sorted_perm l : Permutation (sorted l) l.
Proof.
  induction l as [|y l IH]; simpl; [reflexivity|].
  now rewrite insert_year_perm, IH.
Qed.

Lemma insert_year_sorted y l :
  StronglySorted Z.le l -> StronglySorted Z.le (insert_year y l).
Proof.
  induction l as [|z l IH]; intros Hs; simpl.
  - repeat constructor.
  - inversion Hs as [|? ? Hl Hz]; subst.
    destruct (Z.leb_spec y z) as [L | L].
    + constructor; [assumption|]. constructor; [assumption|].
      rewrite Forall_forall in *. intros w Hw. specialize (Hz w Hw). lia.
    + constructor; [now apply IH|].
      rewrite Forall_forall in *. intros w Hw.
      apply (Permutation_in _ (insert_year_perm y l)) in Hw.
      destruct Hw as [<- | Hw]; [lia | now apply Hz].
Qed.

Lemma sorted_sorted l : StronglySorted Z.le (sorted l).
Proof.
  induction l as [|y l IH]; simpl; [constructor|].
  now apply insert_year_sorted.
Qed.

Lemma sorted_strict l :
  NoDup l -> StronglySorted Z.le l -> StronglySorted Z.lt l.
Proof.
  induction l as [|y l IH]; intros Hn Hs; [constructor|].
  inversion Hn as [|? ? Hy Hl]; subst.
  inversion Hs as [|? ? Hs' Hall]; subst.
  constructor; [now apply IH|].
  rewrite Forall_forall in *. intros z Hz. specialize (Hall z Hz).
  assert (y <> z) by (intros ->; contradiction). lia.
Qed.

Section Partition.

Context {A : Type} (key : A -> Z).

Lemma filter_all (f : A -> bool) (l : list A) :
  (forall x, In x l -> f x = true) -> filter f l = l.
Proof.
  induction l as [|x l IH]; intros H; simpl; [reflexivity|].
  rewrite (H x (or_introl eq_refl)). f_equal. apply IH.
  intros y Hy. apply H. now right.
Qed.

Lemma filter_or_disjoint (p q : A -> bool) (l : list A) :
  (forall x, p x = true -> q x = false) ->
  Permutation (filter p l ++ filter q l) (filter (fun x => p x || q x) l).
Proof.
  intros Hd. induction l as [|x l IH]; simpl; [constructor|].
  destruct (p x) eqn:Px; simpl.
  - rewrite (Hd x Px). now constructor.
  - destruct (q x); [|exact IH].
    symmetry. apply Permutation_cons_app. now symmetry.
Qed.

(** Splitting a table by the values of a key and putting the parts
    together again gives back its rows. *)
Lemma partition_by_key (l : list A) (ks : list Z) :
  NoDup ks -> (forall x, In x l -> In (key x) ks) ->
  Permutation (flat_map (fun k => filter (fun x => key x =? k) l) ks) l.
Proof.
  intros Hn Hall.
  transitivity (filter (fun x => existsb (Z.eqb (key x)) ks) l).
  - clear Hall. induction Hn as [|k ks Hk Hn IH]; simpl.
    + induction l as [|x l IHl]; simpl; [constructor | exact IHl].
    + rewrite IH. apply filter_or_disjoint.
      intros x Hx. apply Z.eqb_eq in Hx. subst k.
      destruct (existsb (Z.eqb (key x)) ks) eqn:E; [|reflexivity].
      apply existsb_exists in E. destruct E as [z [Hz Ez]].
      apply Z.eqb_eq in Ez. subst z. contradiction.
  - rewrite filter_all; [reflexivity|].
    intros x Hx. apply existsb_exists. exists (key x).
    split; [now apply Hall | apply Z.eqb_refl].
Qed.

End Partition.

Import Ranking YearMap.

Lemma year_options_spec df :
  StronglySorted Z.lt (year_options df) /\
  (forall y, In y (year_options df) <-> exists r, In r df /\ year r = y).
Proof.
  unfold year_options. split.
  - apply sorted_strict; [|apply sorted_sorted].
    apply (Permutation_NoDup (Permutation_sym (sorted_perm _))).
    apply NoDup_unique.
  - intros y. split; intros H.
    + apply (Permutation_in _ (sorted_perm _)) in H.
      apply In_unique, in_map_iff in H. destruct H as [r [Hy Hr]].
      now exists r.
    + destruct H as [r [Hr Hy]].
      apply (Permutation_in _ (Permutation_sym (sorted_perm _))).
      apply In_unique, in_map_iff. now exists r.
Qed.

(** X8.  The years offered by the select box are in strictly ascending
    order, hence without repetition, and are exactly the years that occur
    in the table. *)
Theorem year_options_sorted_exact df :
  StronglySorted Z.lt (year_options df) /\
  (forall y, In y (year_options df) <-> exists r, In r df /\ year r = y).
Proof. apply year_options_spec. Qed.

(** X9.  Every year of the select box shows a map with at least one
    row, all of that year; and the maps of all the years show, together,
    each row of the table once. *)
Theorem df_plot_partition df :
  (forall y, In y (year_options df) ->
     df_plot df y <> [] /\ Forall (fun r => year r = y) (df_plot df y)) /\
  Permutation (flat_map (df_plot df) (year_options df)) df.
Proof.
  split.
  - intros y Hy. apply year_options_spec in Hy.
    destruct Hy as [r [Hr Hy]]. split.
    + assert (Hin : In r (df_plot df y)).
      { apply filter_In. split; [exact Hr | now apply Z.eqb_eq]. }
      intros E. rewrite E in Hin. exact Hin.
    + apply Forall_forall. intros r' Hr'. apply filter_In in Hr'.
      now apply Z.eqb_eq.
  - apply (partition_by_key year).
    + destruct (year_options_spec df) as [Hs _].
      clear - Hs. induction Hs as [|y l Hs IH Hy]; constructor; auto.
      intros Hin. rewrite Forall_forall in Hy. specialize (Hy y Hin). lia.
    + intros r Hr. apply year_options_spec. now exists r.
Qed.

(** X9 on a table with the years 2021 and 2020. *)
Lemma df_plot_partition_witness :
  let rA := {| country := "A"; year := 2021; ccii := NaN; gwe := NaN; gwghg := NaN |} in
  let rB := {| country := "B"; year := 2020; ccii := NaN; gwe := NaN; gwghg := NaN |} in
  year_options [rA; rB] = [2020; 2021] /\
  df_plot [rA; rB] 2020 <> [] /\
  Forall (fun r => year r = 2020) (df_plot [rA; rB] 2020).
Proof.
  intros rA rB. split; [reflexivity|].
  apply (proj1 (df_plot_partition [rA; rB]) 2020).
  simpl. tauto.
Defined.

(** X8 on a table with the years 2021 and 2020. *)
Lemma year_options_sorted_exact_witness :
  let rA := {| country := "A"; year := 2021; ccii := NaN; gwe := NaN; gwghg := NaN |} in
  let rB := {| country := "B"; year := 2020; ccii := NaN; gwe := NaN; gwghg := NaN |} in
  exists r, In r [rA; rB] /\ year r = 2020.
Proof.
  intros rA rB.
  apply (proj1 (proj2 (year_options_sorted_exact [rA; rB]) 2020)).
  simpl. tauto.
Defined.

Import Quadrant Scatter.

Lemma flat_map_map {B C D : Type} (f : C -> D) (g : B -> list C)
    (l : list B) :
  flat_map (fun b => map f (g b)) l = map f (flat_map g l).
Proof.
  induction l as [|b l IH]; simpl; [reflexivity|].
  now rewrite IH, map_app.
Qed.

Lemma frame_list_partition df_ind y_metric :
  NoDup (map fst (frame_list df_ind y_metric)) /\
  (forall yr, In yr (map fst (frame_list df_ind y_metric)) <->
              exists r, In r df_ind /\ Quadrant.year r = yr) /\
  Forall (fun f => snd f <> []) (frame_list df_ind y_metric) /\
  Permutation (flat_map snd (frame_list df_ind y_metric))
              (map (marker y_metric) df_ind).
Proof.
  unfold frame_list. rewrite map_map. cbn [fst]. rewrite map_id.
  split; [apply NoDup_unique|]. split; [|split].
  - intros yr. rewrite In_unique, in_map_iff. split.
    + intros [r [Hy Hr]]. now exists r.
    + intros [r [Hr Hy]]. now exists r.
  - apply Forall_forall. intros f Hf. apply in_map_iff in Hf.
    destruct Hf as [yr [<- Hyr]]. cbn [snd].
    apply In_unique, in_map_iff in Hyr. destruct Hyr as [r [Hy Hr]].
    unfold frame_points. intros E.
    assert (Hin : In r (filter (fun r0 => Quadrant.year r0 =? yr) df_ind)).
    { apply filter_In. split; [exact Hr | now apply Z.eqb_eq]. }
    destruct (filter (fun r0 => Quadrant.year r0 =? yr) df_ind);
      [contradiction | discriminate].
  - rewrite flat_map_concat_map, map_map. cbn [snd].
    rewrite <- flat_map_concat_map. unfold frame_points.
    rewrite (flat_map_map
               (fun r => {| label := industry r; px := Quadrant.ccii r;
                            py := Quadrant.col y_metric r |})).
    apply Permutation_map. apply (partition_by_key Quadrant.year).
    + apply NoDup_unique.
    + intros r Hr. apply In_unique. now apply in_map.
Qed.

(** X10.  The frames of the animation.  A table with at least two years
    gives one frame for each of its years, no two with the same name and
    none empty; the frames hold, together, the marker of each row once.
    A table with a single year gives no frame: the figure itself holds
    the markers of all rows, in the order of the table. *)
Theorem frames_partition df_ind y_metric :
  ((2 <= length (unique (map Quadrant.year df_ind)))%nat ->
   NoDup (map fst (frames df_ind y_metric)) /\
   (forall yr, In yr (map fst (frames df_ind y_metric)) <->
               exists r, In r df_ind /\ Quadrant.year r = yr) /\
   Forall (fun f => snd f <> []) (frames df_ind y_metric) /\
   Permutation (flat_map snd (frames df_ind y_metric))
               (map (marker y_metric) df_ind)) /\
  (length (unique (map Quadrant.year df_ind)) = 1%nat ->
   frames df_ind y_metric = [] /\
   data df_ind y_metric = map (marker y_metric) df_ind).
Proof.
  split.
  - intros H2. unfold frames.
    replace (length (frame_list df_ind y_metric))
      with (length (unique (map Quadrant.year df_ind)))
      by (unfold frame_list; now rewrite length_map).
    destruct (Nat.leb_spec (length (unique (map Quadrant.year df_ind))) 1);
      [lia|]. apply frame_list_partition.
  - intros H1. unfold frames, data, frame_list.
    rewrite length_map, H1. split; [reflexivity|].
    destruct (unique (map Quadrant.year df_ind)) as [|y [|y' ys]] eqn:E;
      try discriminate.
    cbn [map snd]. unfold frame_points, marker. f_equal.
    apply filter_all. intros r Hr. apply Z.eqb_eq.
    assert (Hin : In (Quadrant.year r) (unique (map Quadrant.year df_ind))).
    { apply In_unique. now apply in_map. }
    rewrite E in Hin. destruct Hin as [<- | []]. reflexivity.
Qed.

(** X10 on the example table, whose years are 2020 and 2021, and on its
    first row alone. *)
Lemma frames_partition_witness :
  (exists r, In r example_table /\ Quadrant.year r = 2021) /\
  frames (firstn 1 example_table) y_gwe = [].
Proof.
  split.
  - apply (proj1 (proj1 (proj2 (proj1 (frames_partition example_table y_gwe)
                                  ltac:(vm_compute; lia))) 2021)).
    vm_compute. tauto.
  - apply (proj2 (frames_partition (firstn 1 example_table) y_gwe)).
    reflexivity.
Defined.

End YearFacts.

(* ------------------------------------------------------------------ *)
(** ** More on the quadrant layout *)

Module QuadrantMore.

Import Quadrant QuadrantFacts.



End QuadrantMore.

(* ------------------------------------------------------------------ *)
(** ** More on the loaders *)

Module LoaderMore.

Import Loader.

Lemma getitem_In df n s : getitem df n = Returns s -> In n (map fst df).
Proof.
  induction df as [|[k v] df IH]; simpl; [discriminate|].
  destruct (String.eqb_spec k n) as [-> | Hk]; auto.
Qed.

Lemma getitem_missing df n : ~ In n (map fst df) -> getitem df n = Raises KeyError.
Proof.
  induction df as [|[k v] df IH]; simpl; [reflexivity|].
  intros H. destruct (String.eqb_spec k n) as [-> | Hk]; [tauto|].
  apply IH. tauto.
Qed.

Lemma setitem_spec df n s :
  getitem (setitem df n s) n = Returns s /\
  (forall n', n' <> n -> getitem (setitem df n s) n' = getitem df n') /\
  (In n (map fst df) -> map fst (setitem df n s) = map fst df).
Proof.
  induction df as [|[k v] df [IH1 [IH2 IH3]]]; simpl.
  - rewrite String.eqb_refl. repeat split.
    + intros n' Hn. destruct (String.eqb_spec n n'); [congruence | reflexivity].
    + contradiction.
  - destruct (String.eqb_spec k n) as [-> | Hk]; simpl.
    + rewrite String.eqb_refl. repeat split.
      intros n' Hn. destruct (String.eqb_spec n n'); [congruence | reflexivity].
    + destruct (String.eqb_spec k n); [contradiction|]. repeat split.
      * exact IH1.
      * intros n' Hn. destruct (String.eqb_spec k n'); [reflexivity|].
        now apply IH2.
      * intros [H | H]; [contradiction|]. f_equal. now apply IH3.
Qed.

Section World.

Variable parse_csv : string -> outcome DataFrame.
Variable py_int : string -> option Z.

Lemma astype_int_Int64 y s :
  astype_int py_int y = Returns s -> exists zs, s = Int64 zs.
Proof.
  destruct y as [xs | xs | xs | xs | cs]; simpl.
  - intros [= <-]. eauto.
  - intros [= <-]. eauto.
  - destruct (forallb notna xs); [|discriminate]. intros [= <-]. eauto.
  - intros [= <-]. eauto.
  - destruct (int_cells py_int cs); simpl; [|discriminate].
    intros [= <-]. eauto.
Qed.

Lemma int_cells_length cs zs :
  int_cells py_int cs = Returns zs -> length zs = length cs.
Proof.
  revert zs. induction cs as [|c cs IH]; intros zs; simpl.
  - now intros [= <-].
  - destruct (int_cell py_int c); [|discriminate]. cbn [bind].
    destruct (int_cells py_int cs) as [zs' |]; [|discriminate].
    cbn [bind]. intros [= <-]. simpl. f_equal. now apply IH.
Qed.

(** The cast keeps the number of rows: the column that [load] assigns
    is on the index of the frame. *)
Lemma astype_int_size y s : astype_int py_int y = Returns s -> size s = size y.
Proof.
  destruct y as [xs | xs | xs | xs | cs]; simpl.
  - now intros [= <-].
  - intros [= <-]. apply length_map.
  - destruct (forallb notna xs); [|discriminate]. intros [= <-].
    apply length_map.
  - intros [= <-]. apply length_map.
  - destruct (int_cells py_int cs) as [zs |] eqn:E; [|discriminate].
    cbn [bind]. intros [= <-]. simpl. eapply int_cells_length; eassumption.
Qed.

(** X14.  A table that a loader returns is the parsed file with its
    year column replaced by a column of whole numbers: the names and the
    order of the columns, and every other column, are those of the
    parsed file. *)
Theorem load_returns_int_years path fs df' :
  load parse_csv py_int path fs = Returns df' ->
  exists df y zs,
    read_csv parse_csv fs path = Returns df /\
    getitem df "year" = Returns y /\
    astype_int py_int y = Returns (Int64 zs) /\
    getitem df' "year" = Returns (Int64 zs) /\
    map fst df' = map fst df /\
    (forall n, n <> "year"%string -> getitem df' n = getitem df n).
Proof.
  unfold load.
  destruct (read_csv parse_csv fs path) as [df | e]; [|discriminate].
  cbn [bind].
  destruct (getitem df "year") as [y | e] eqn:Ey; [|discriminate].
  cbn [bind].
  destruct (astype_int py_int y) as [s | e] eqn:Es; [|discriminate].
  cbn [bind]. intros [= <-].
  destruct (astype_int_Int64 _ _ Es) as [zs ->].
  destruct (setitem_spec df "year" (Int64 zs)) as [H1 [H2 H3]].
  exists df, y, zs. repeat split; auto.
  apply H3. eapply getitem_In; eassumption.
Qed.

(** X15.  A file without a column named "year" makes the loader fail
    with [KeyError]. *)
Theorem load_without_year_column path fs text df :
  fs path = Some text -> parse_csv text = Returns df ->
  ~ In "year"%string (map fst df) ->
  load parse_csv py_int path fs = Raises KeyError.
Proof.
  intros Hf Hp Hn. unfold load, read_csv. rewrite Hf, Hp. cbn [bind].
  now rewrite (getitem_missing _ _ Hn).
Qed.






End World.

(** X14 on the example file. *)
Lemma load_returns_int_years_witness :
  exists df y zs,
    read_csv example_parser good_files "countrylevel.csv" = Returns df /\
    getitem df "year" = Returns y /\
    astype_int decimal_int y = Returns (Int64 zs) /\
    getitem good_frame "year" = Returns (Int64 zs) /\
    map fst good_frame = map fst df /\
    (forall n, n <> "year"%string -> getitem good_frame n = getitem df n).
Proof.
  apply (load_returns_int_years example_parser decimal_int
           "countrylevel.csv" good_files good_frame).
  reflexivity.
Defined.

(** X15 on a file that has the columns "country" and "ccii" only. *)
Lemma load_without_year_column_witness :
  load (fun _ => Returns [("country"%string, Object [PyStr "A"]);
                          ("ccii"%string, Float64 [Num 1])])
       decimal_int "countrylevel.csv" good_files
  = Raises KeyError.
Proof.
  apply (load_without_year_column _ decimal_int "countrylevel.csv"
           good_files good_csv
           [("country"%string, Object [PyStr "A"]);
            ("ccii"%string, Float64 [Num 1])]).
  - reflexivity.
  - reflexivity.
  - simpl. intros [H | [H | []]]; discriminate.
Defined.


End LoaderMore.

(* ------------------------------------------------------------------ *)
(** ** The click counters and the selectors *)

Module DictFacts.

Section Ops.

Context {V : Type}.

Lemma getitem_setitem_eq (d : Dict.dict V) k v :
  Dict.getitem (Dict.setitem d k v) k = Returns v.
Proof.
  induction d as [|[k' v'] d IH]; simpl.
  - now rewrite String.eqb_refl.
  - destruct (String.eqb_spec k' k) as [-> | Hk]; simpl.
    + now rewrite String.eqb_refl.
    + destruct (String.eqb_spec k' k); [contradiction | exact IH].
Qed.

Lemma getitem_setitem_ne (d : Dict.dict V) k v k' :
  k' <> k -> Dict.getitem (Dict.setitem d k v) k' = Dict.getitem d k'.
Proof.
  intros Hn. induction d as [|[k0 v0] d IH]; simpl.
  - destruct (String.eqb_spec k k'); [congruence | reflexivity].
  - destruct (String.eqb_spec k0 k) as [-> | Hk]; simpl.
    + destruct (String.eqb_spec k k'); [congruence | reflexivity].
    + destruct (String.eqb_spec k0 k'); [reflexivity | exact IH].
Qed.

Lemma contains_getitem (d : Dict.dict V) k :
  if Dict.contains d k
  then exists v, Dict.getitem d k = Returns v
  else Dict.getitem d k = Raises KeyError.
Proof.
  unfold Dict.contains, Dict.keys.
  induction d as [|[k' v'] d IH]; simpl; [reflexivity|].
  rewrite (String.eqb_sym k k').
  destruct (String.eqb k' k); simpl; [eauto | exact IH].
Qed.

Lemma getitem_keys (d : Dict.dict V) k :
  In k (Dict.keys d) -> exists v, Dict.getitem d k = Returns v /\ In (k, v) d.
Proof.
  unfold Dict.keys. induction d as [|[k' v'] d IH]; simpl; [contradiction|].
  destruct (String.eqb_spec k' k) as [-> | Hk].
  - intros _. exists v'. auto.
  - intros [H | H]; [contradiction|].
    destruct (IH H) as [v [Hv Hin]]. exists v. auto.
Qed.

End Ops.

End DictFacts.

Module CounterFacts.

Import Counter DictFacts.

Lemma start_value_setitem_eq ss k v :
  start_value (Dict.setitem ss k v) k = v.
Proof. unfold start_value. now rewrite getitem_setitem_eq. Qed.

Lemma start_value_setitem_ne ss k v k' :
  k' <> k -> start_value (Dict.setitem ss k v) k' = start_value ss k'.
Proof. intros H. unfold start_value. now rewrite getitem_setitem_ne. Qed.

(** After [init] the counter is there, with the value the run starts
    from; no other name is touched. *)
Lemma init_spec ss k :
  Dict.getitem (init ss k) k = Returns (start_value ss k) /\
  forall k', k' <> k -> Dict.getitem (init ss k) k' = Dict.getitem ss k'.
Proof.
  unfold init, start_value. assert (H := contains_getitem ss k).
  destruct (Dict.contains ss k).
  - destruct H as [v Hv]. rewrite Hv. auto.
  - rewrite H, getitem_setitem_eq. split; [reflexivity|].
    intros k' Hk. now apply getitem_setitem_ne.
Qed.

Lemma click_spec b k ss v :
  Dict.getitem ss k = Returns v ->
  exists ss',
    click b k ss = Returns ss' /\
    Dict.getitem ss' k = Returns (v + if b then 1 else 0) /\
    forall k', k' <> k -> Dict.getitem ss' k' = Dict.getitem ss k'.
Proof.
  intros Hv. unfold click, getattr. destruct b.
  - rewrite Hv. cbn [bind]. eexists. split; [reflexivity|].
    rewrite getitem_setitem_eq. split; [reflexivity|].
    intros k' Hk. now apply getitem_setitem_ne.
  - exists ss. rewrite Z.add_0_r. auto.
Qed.

(** One run. *)
Lemma counters_spec l s ss :
  exists ss',
    counters l s ss
    = Returns (ss',
               {| likes := start_value ss "like_count" + (if l then 1 else 0);
                  really_likes :=
                    start_value ss "star_count" + (if s then 1 else 0) |}) /\
    Dict.getitem ss' "like_count"
    = Returns (start_value ss "like_count" + (if l then 1 else 0)) /\
    Dict.getitem ss' "star_count"
    = Returns (start_value ss "star_count" + (if s then 1 else 0)) /\
    forall k, k <> "like_count"%string -> k <> "star_count"%string ->
              Dict.getitem ss' k = Dict.getitem ss k.
Proof.
  unfold counters.
  destruct (init_spec ss "like_count") as [L1 L2].
  destruct (init_spec (init ss "like_count") "star_count") as [S1 S2].
  assert (Hs : start_value (init ss "like_count") "star_count"
               = start_value ss "star_count").
  { unfold start_value. rewrite L2; [reflexivity | discriminate]. }
  rewrite Hs in S1.
  set (ss2 := init (init ss "like_count") "star_count") in *.
  assert (L3 : Dict.getitem ss2 "like_count"
               = Returns (start_value ss "like_count")).
  { rewrite S2; [exact L1 | discriminate]. }
  destruct (click_spec l "like_count" ss2 _ L3) as [ss3 [C3 [G3 O3]]].
  rewrite C3. cbn [bind]. unfold getattr at 1. rewrite G3. cbn [bind].
  assert (S3 : Dict.getitem ss3 "star_count"
               = Returns (start_value ss "star_count")).
  { rewrite O3; [exact S1 | discriminate]. }
  destruct (click_spec s "star_count" ss3 _ S3) as [ss4 [C4 [G4 O4]]].
  rewrite C4. cbn [bind]. unfold getattr. rewrite G4. cbn [bind].
  exists ss4. split; [reflexivity|]. split; [|split].
  - rewrite O4; [exact G3 | discriminate].
  - exact G4.
  - intros k K1 K2. rewrite O4, O3, S2, L2; auto.
Qed.

Lemma clicks_cons (f : bool * bool -> bool) e evs :
  Z.of_nat (length (filter f (e :: evs)))
  = (if f e then 1 else 0) + Z.of_nat (length (filter f evs)).
Proof. cbn [filter]. destruct (f e); cbn [length]; lia. Qed.

Lemma reruns_spec evs : forall ss,
  exists ss',
    reruns evs ss = Returns ss' /\
    start_value ss' "like_count"
    = start_value ss "like_count" + like_clicks evs /\
    start_value ss' "star_count"
    = start_value ss "star_count" + star_clicks evs /\
    forall k, k <> "like_count"%string -> k <> "star_count"%string ->
              Dict.getitem ss' k = Dict.getitem ss k.
Proof.
  induction evs as [|[l s] evs IH]; intros ss.
  - exists ss. unfold like_clicks, star_clicks. simpl.
    rewrite !Z.add_0_r. auto.
  - destruct (counters_spec l s ss) as [ss1 [C [GL [GS O]]]].
    destruct (IH ss1) as [ss' [R [HL [HS O']]]].
    exists ss'. cbn [reruns]. rewrite C. cbn [bind fst].
    split; [exact R|].
    unfold like_clicks, star_clicks in *. rewrite !clicks_cons. cbn [fst snd].
    assert (VL : start_value ss1 "like_count"
                 = start_value ss "like_count" + (if l then 1 else 0)).
    { unfold start_value at 1. now rewrite GL. }
    assert (VS : start_value ss1 "star_count"
                 = start_value ss "star_count" + (if s then 1 else 0)).
    { unfold start_value at 1. now rewrite GS. }
    rewrite VL in HL. rewrite VS in HS.
    split; [|split].
    + rewrite HL. lia.
    + rewrite HS. lia.
    + intros k K1 K2. rewrite O', O; auto.
Qed.

(** X18.  The counters count the clicks.  After any sequence of runs of
    the script, the next run raises nothing and shows, for each button,
    the value its counter had when the session began (0 in a fresh
    session) plus the number of runs started by a click on that button,
    this run included. *)
Theorem counters_count_clicks evs l s ss0 :
  exists ss ss' sh,
    reruns evs ss0 = Returns ss /\
    counters l s ss = Returns (ss', sh) /\
    likes sh
    = start_value ss0 "like_count" + like_clicks (evs ++ [(l, s)]) /\
    really_likes sh
    = start_value ss0 "star_count" + star_clicks (evs ++ [(l, s)]).
Proof.
  destruct (reruns_spec evs ss0) as [ss [R [HL [HS _]]]].
  destruct (counters_spec l s ss) as [ss' [C _]].
  exists ss, ss'. eexists. split; [exact R|]. split; [exact C|].
  cbn [likes really_likes]. rewrite HL, HS.
  unfold like_clicks, star_clicks.
  rewrite !filter_app, !length_app, !Nat2Z.inj_add. cbn [filter fst snd].
  destruct l, s; simpl; lia.
Qed.

(** X19.  The runs of the counter code leave every other entry of the
    session state as it is, and a click on one button does not move the
    counter of the other. *)
Theorem counters_touch_nothing_else evs ss0 :
  exists ss,
    reruns evs ss0 = Returns ss /\
    (forall k, k <> "like_count"%string -> k <> "star_count"%string ->
               Dict.getitem ss k = Dict.getitem ss0 k) /\
    (like_clicks evs = 0 ->
     start_value ss "like_count" = start_value ss0 "like_count") /\
    (star_clicks evs = 0 ->
     start_value ss "star_count" = start_value ss0 "star_count").
Proof.
  destruct (reruns_spec evs ss0) as [ss [R [HL [HS O]]]].
  exists ss. split; [exact R|]. split; [exact O|]. split; intros H; lia.
Qed.

(** X19 on a session with a widget key and two clicks on the second
    button. *)
Lemma counters_touch_nothing_else_witness :
  exists ss,
    reruns [(false, true); (false, true)]
           [("industry_scatter_quadrant"%string, 1)] = Returns ss /\
    Dict.getitem ss "industry_scatter_quadrant" = Returns 1 /\
    start_value ss "like_count" = 0.
Proof.
  destruct (counters_touch_nothing_else [(false, true); (false, true)]
              [("industry_scatter_quadrant"%string, 1)])
    as [ss [R [O [L _]]]].
  exists ss. split; [exact R|]. split.
  - rewrite O; [reflexivity | discriminate | discriminate].
  - rewrite L; reflexivity.
Defined.

End CounterFacts.

Module ConfigFacts.

Import Config DictFacts.

(** X20.  No selector can raise [KeyError]: every option of the radio
    button is a key of [indicator_config], and the options of the two
    select boxes are the keys of their tables.  The column chosen is
    always one of the metric columns; for the y axis of the industry plot
    it is never "ccii", the column of the x axis; and two different
    options never choose the same column. *)
Theorem selectors_resolve :
  (forall indicator, In indicator indicator_options ->
     exists m t s,
       select_indicator indicator = Returns (metric_column m, t, s)) /\
  (forall metric_label, In metric_label metric_options ->
     exists m, select_metric metric_label = Returns (metric_column m)) /\
  (forall color_label, In color_label color_options ->
     exists y, select_y_metric color_label = Returns (y_column y) /\
               y_column y <> "ccii"%string) /\
  (forall l1 l2 c, In l1 metric_options -> In l2 metric_options ->
     select_metric l1 = Returns c -> select_metric l2 = Returns c ->
     l1 = l2) /\
  (forall i1 i2 c t1 s1 t2 s2,
     In i1 indicator_options -> In i2 indicator_options ->
     select_indicator i1 = Returns (c, t1, s1) ->
     select_indicator i2 = Returns (c, t2, s2) -> i1 = i2).
Proof.
  split; [|split; [|split; [|split]]].
  - intros i [<- | [<- | [<- | []]]];
      [ exists Ranking.m_ccii | exists Ranking.m_gwe
      | exists Ranking.m_gwghg ]; eexists; eexists; reflexivity.
  - intros l [<- | [<- | [<- | []]]];
      [ exists Ranking.m_ccii | exists Ranking.m_gwe
      | exists Ranking.m_gwghg ]; reflexivity.
  - intros l [<- | [<- | []]];
      [ exists Quadrant.y_gwe | exists Quadrant.y_gwghg ];
      (split; [reflexivity | discriminate]).
  - intros l1 l2 c [<- | [<- | [<- | []]]] [<- | [<- | [<- | []]]] H1 H2;
      try reflexivity; vm_compute in H1, H2; congruence.
  - intros i1 i2 c t1 s1 t2 s2
      [<- | [<- | [<- | []]]] [<- | [<- | [<- | []]]] H1 H2;
      try reflexivity; vm_compute in H1, H2; congruence.
Qed.

(** X20 at the option "GWE" of the radio button. *)
Lemma selectors_resolve_witness :
  exists m t s, select_indicator "GWE" = Returns (metric_column m, t, s).
Proof.
  apply (proj1 selectors_resolve "GWE"%string).
  simpl. tauto.
Defined.

End ConfigFacts.

(* ------------------------------------------------------------------ *)
(** ** The order of binary64 *)

Module Binary64Facts.

Import Binary64.

Lemma compare_refl x : isnan x = false -> SFcompare x x = Some Eq.
Proof.
  destruct x as [s|s| |s m e]; simpl; try discriminate; intros _;
    destruct s; rewrite ?Z.compare_refl, ?Pos.compare_cont_refl; reflexivity.
Qed.

Lemma compare_antisym x y c :
  SFcompare x y = Some c -> SFcompare y x = Some (CompOpp c).
Proof.
  destruct x as [s|s| |s m e], y as [s'|s'| |s' m' e']; simpl;
    try discriminate; try (destruct s); try (destruct s');
    intros [= <-]; try reflexivity;
    change (Pos.compare_cont Eq) with Pos.compare;
    rewrite (Z.compare_antisym e e'), (Pos.compare_antisym m m');
    destruct (e ?= e'), (m ?= m')%positive; reflexivity.
Qed.

Lemma compare_total x y :
  isnan x = false -> isnan y = false -> exists c, SFcompare x y = Some c.
Proof.
  destruct x, y; simpl; try discriminate; intros _ _; eauto.
Qed.

Lemma leb_refl x : isnan x = false -> leb x x = true.
Proof. intros H. unfold leb, SFleb. now rewrite compare_refl. Qed.

Lemma leb_total x y :
  isnan x = false -> isnan y = false -> leb x y = false -> leb y x = true.
Proof.
  intros Hx Hy. unfold leb, SFleb.
  destruct (compare_total x y Hx Hy) as [c Hc].
  rewrite Hc, (compare_antisym _ _ _ Hc). now destruct c.
Qed.

Lemma leb_trans x y z : leb x y = true -> leb y z = true -> leb x z = true.
Proof.
  unfold leb, SFleb.
  destruct x as [s|s| |s m e], y as [s'|s'| |s' m' e'],
           z as [s''|s''| |s'' m'' e''];
    simpl; try discriminate; try reflexivity;
    try (destruct s); try (destruct s'); try (destruct s'');
    simpl; try discriminate; try reflexivity;
    change (Pos.compare_cont Eq) with Pos.compare;
    destruct (Z.compare_spec e e'), (Z.compare_spec e' e''),
             (Z.compare_spec e e'');
    subst; try lia; try discriminate; try reflexivity;
    destruct (Pos.compare_spec m m'), (Pos.compare_spec m' m''),
             (Pos.compare_spec m m'');
    subst; simpl; try lia; try discriminate; try reflexivity.
Qed.


Lemma fmax_cases a b : fmax a b = a \/ fmax a b = b.
Proof. unfold fmax. destruct (leb b a); auto. Qed.

Lemma fmin_cases a b : fmin a b = a \/ fmin a b = b.
Proof. unfold fmin. destruct (leb a b); auto. Qed.

Lemma fmax_ub a b :
  isnan a = false -> isnan b = false ->
  leb a (fmax a b) = true /\ leb b (fmax a b) = true.
Proof.
  intros Ha Hb. unfold fmax. destruct (leb b a) eqn:E.
  - split; [now apply leb_refl | exact E].
  - split; [now apply leb_total | now apply leb_refl].
Qed.

Lemma fmin_lb a b :
  isnan a = false -> isnan b = false ->
  leb (fmin a b) a = true /\ leb (fmin a b) b = true.
Proof.
  intros Ha Hb. unfold fmin. destruct (leb a b) eqn:E.
  - split; [now apply leb_refl | exact E].
  - split; [now apply leb_total | now apply leb_refl].
Qed.

Lemma fold_fmax_spec vs v :
  (forall x, In x (v :: vs) -> isnan x = false) ->
  In (fold_left fmax vs v) (v :: vs) /\
  forall x, In x (v :: vs) -> leb x (fold_left fmax vs v) = true.
Proof.
  revert v. induction vs as [|w vs IH]; intros v Hn.
  - simpl. split; [now left|]. intros x [<- | []]. apply leb_refl.
    apply Hn. now left.
  - cbn [fold_left].
    assert (Hv : isnan v = false) by (apply Hn; simpl; auto).
    assert (Hw : isnan w = false) by (apply Hn; simpl; auto).
    assert (Hm : isnan (fmax v w) = false).
    { destruct (fmax_cases v w) as [-> | ->]; assumption. }
    destruct (IH (fmax v w)) as [Hin Hub].
    { intros x [<- | Hx]; [exact Hm | apply Hn; simpl; auto]. }
    destruct (fmax_ub v w Hv Hw) as [U1 U2]. split.
    + destruct Hin as [<- | Hin]; [|simpl; auto].
      destruct (fmax_cases v w) as [-> | ->]; simpl; auto.
    + intros x [<- | [<- | Hx]].
      * eapply leb_trans; [exact U1 | apply Hub; now left].
      * eapply leb_trans; [exact U2 | apply Hub; now left].
      * apply Hub. now right.
Qed.

Lemma fold_fmin_spec vs v :
  (forall x, In x (v :: vs) -> isnan x = false) ->
  In (fold_left fmin vs v) (v :: vs) /\
  forall x, In x (v :: vs) -> leb (fold_left fmin vs v) x = true.
Proof.
  revert v. induction vs as [|w vs IH]; intros v Hn.
  - simpl. split; [now left|]. intros x [<- | []]. apply leb_refl.
    apply Hn. now left.
  - cbn [fold_left].
    assert (Hv : isnan v = false) by (apply Hn; simpl; auto).
    assert (Hw : isnan w = false) by (apply Hn; simpl; auto).
    assert (Hm : isnan (fmin v w) = false).
    { destruct (fmin_cases v w) as [-> | ->]; assumption. }
    destruct (IH (fmin v w)) as [Hin Hlb].
    { intros x [<- | Hx]; [exact Hm | apply Hn; simpl; auto]. }
    destruct (fmin_lb v w Hv Hw) as [L1 L2]. split.
    + destruct Hin as [<- | Hin]; [|simpl; auto].
      destruct (fmin_cases v w) as [-> | ->]; simpl; auto.
    + intros x [<- | [<- | Hx]].
      * eapply leb_trans; [apply Hlb; now left | exact L1].
      * eapply leb_trans; [apply Hlb; now left | exact L2].
      * apply Hlb. now right.
Qed.

End Binary64Facts.

Module Quadrant64Facts.

Import Binary64 Binary64Facts Quadrant64.

Lemma In_dropna s x : In x (dropna s) <-> In x s /\ isnan x = false.
Proof. unfold dropna. rewrite filter_In, negb_true_iff. tauto. Qed.

Lemma nanmax_column_max s : column_max s (nanmax s).
Proof.
  unfold column_max, nanmax. destruct (dropna s) as [|v vs] eqn:E.
  - left. auto.
  - right.
    assert (Hn : forall x, In x (v :: vs) -> isnan x = false).
    { intros x Hx. rewrite <- E in Hx. now apply In_dropna in Hx. }
    destruct (fold_fmax_spec vs v Hn) as [Hin Hub].
    split; [|split].
    + rewrite <- E in Hin. now apply In_dropna in Hin.
    + now apply Hn.
    + intros x Hx Hx'. apply Hub. rewrite <- E. now apply In_dropna.
Qed.

Lemma nanmin_column_min s : column_min s (nanmin s).
Proof.
  unfold column_min, nanmin. destruct (dropna s) as [|v vs] eqn:E.
  - left. auto.
  - right.
    assert (Hn : forall x, In x (v :: vs) -> isnan x = false).
    { intros x Hx. rewrite <- E in Hx. now apply In_dropna in Hx. }
    destruct (fold_fmin_spec vs v Hn) as [Hin Hlb].
    split; [|split].
    + rewrite <- E in Hin. now apply In_dropna in Hin.
    + now apply Hn.
    + intros x Hx Hx'. apply Hlb. rewrite <- E. now apply In_dropna.
Qed.




Section Sum.

Variable np_sum : list float -> float.

(** The script's statements always run to the end. *)
Lemma compute_quadrant_layout64_returns df_ind y_metric :
  let xs := map ccii df_ind in
  let ys := map (col y_metric) df_ind in
  compute_quadrant_layout np_sum df_ind y_metric
  = Returns (fun yr =>
      {| frame_year := yr;
         points := frame_points df_ind y_metric yr;
         x_ref := zero;
         y_ref := nanmean np_sum ys;
         anchors :=
           [ {| ann_x := mul (nanmax xs) c06; ann_y := mul (nanmax ys) c09;
                ann_text := "High CCII<br>High Greenwashing<br>(Symbolic Commitment)" |};
             {| ann_x := mul (nanmin xs) c06; ann_y := mul (nanmax ys) c09;
                ann_text := "Low CCII<br>High Greenwashing<br>(Formalist / Passive)" |};
             {| ann_x := mul (nanmin xs) c06; ann_y := mul (nanmin ys) c09;
                ann_text := "Low CCII<br>Low Greenwashing<br>(Low-risk Industry)" |};
             {| ann_x := mul (nanmax xs) c06; ann_y := mul (nanmin ys) c09;
                ann_text := "High CCII<br>Low Greenwashing<br>(Substantive Commitment)" |} ]
      |}).
Proof. reflexivity. Qed.


End Sum.


(** Extrema of short concrete columns. *)
Ltac extremum64 :=
  split; [simpl; tauto|];
  split; [reflexivity|];
  intros v Hv _; simpl in Hv;
  repeat (destruct Hv as [<- | Hv]; [vm_compute; reflexivity|]);
  contradiction.


(** C7 as stated fails: at the table of the example the top-right anchor
    has the y coordinate 9.0, which is not 0.6 times the greatest, the
    least or any other value of the y column. *)
Lemma anchor_y_counterexample :
  exists F a rest,
    compute_quadrant_layout sum_small example_table Quadrant.y_gwe
    = Returns F /\
    anchors (F 2020) = a :: rest /\
    ann_y a = of_Z 9 /\
    greatest (map gwe example_table) (of_Z 10) /\
    ann_y a = mul (of_Z 10) c09 /\
    forall v, In v (map gwe example_table) -> ann_y a <> mul v c06.
Proof.
  eexists. eexists. eexists.
  split; [reflexivity|]. split; [reflexivity|].
  split; [vm_compute; reflexivity|].
  split; [extremum64|].
  split; [vm_compute; reflexivity|].
  intros v Hv. simpl in Hv.
  repeat (destruct Hv as [<- | Hv]; [vm_compute; discriminate|]).
  contradiction.
Qed.

(** C7, amended.  Each of the four anchors stands at 0.6 times the x
    extreme and 0.9 times the y extreme of its own quadrant: the anchor
    of high CCII and high greenwashing at (x_max*0.6, y_max*0.9), that of
    low CCII and high greenwashing at (x_min*0.6, y_max*0.9), that of low
    CCII and low greenwashing at (x_min*0.6, y_min*0.9), and that of high
    CCII and low greenwashing at (x_max*0.6, y_min*0.9), the products
    being those of binary64 and the extrema those of the whole
    columns. *)
Theorem anchors_of_quadrants np_sum df_ind y_metric :
  let xs := map ccii df_ind in
  let ys := map (col y_metric) df_ind in
  exists F xmin xmax ymin ymax,
    compute_quadrant_layout np_sum df_ind y_metric = Returns F /\
    column_min xs xmin /\ column_max xs xmax /\
    column_min ys ymin /\ column_max ys ymax /\
    forall yr,
      map labelled (anchors (F yr))
      = [ ("High CCII<br>High Greenwashing<br>(Symbolic Commitment)"%string,
           (mul xmax c06, mul ymax c09));
          ("Low CCII<br>High Greenwashing<br>(Formalist / Passive)"%string,
           (mul xmin c06, mul ymax c09));
          ("Low CCII<br>Low Greenwashing<br>(Low-risk Industry)"%string,
           (mul xmin c06, mul ymin c09));
          ("High CCII<br>Low Greenwashing<br>(Substantive Commitment)"%string,
           (mul xmax c06, mul ymin c09)) ].
Proof.
  intros xs ys.
  eexists. exists (nanmin xs), (nanmax xs), (nanmin ys), (nanmax ys).
  split; [apply compute_quadrant_layout64_returns|].
  split; [apply nanmin_column_min|]. split; [apply nanmax_column_max|].
  split; [apply nanmin_column_min|]. split; [apply nanmax_column_max|].
  intros yr. reflexivity.
Qed.

End Quadrant64Facts.
